(** * Communication behaviours of the coordinator and field agents

    A shallow embedding of [l4_agent_commm.py]: the two cyclic
    [CommunicationBehaviour] classes ([CoordinatorAgent] and [FieldAgent]),
    their message handlers, their proactive triggers and their message log.

    One call of a behaviour's [run] is one loop iteration.  The message the
    iteration gets from [self.receive(timeout=2)] is an argument of [run]
    ([None] when the wait times out).  Everything the iteration does to the
    outside is appended to a trace of events: messages handed to the
    transport, chunks written to the log file, and the closing sleep.

    What Python's libraries do is not part of the program and is taken as a
    parameter, the [Runtime]: the JSON decoder and encoder, [str.upper], the
    readings of [datetime.now()] and the answers of the transport.  Console
    output ([print]) is not recorded, but the evaluation of its arguments is,
    because it can raise. *)

From Stdlib Require Import String Ascii List Arith Bool Lia ZArith DecimalString.
Import ListNotations.
Open Scope string_scope.
Set Warnings "-register-all".

(** ** Python values and strings *)

(** The values [json.loads] produces.  A float is kept as its [repr]; a
    [dict] is an association list in insertion order. *)
Inductive value : Type :=
| VNone
| VBool (b : bool)
| VInt (z : Z)
| VFloat (repr : string)
| VStr (s : string)
| VList (l : list value)
| VDict (d : list (string * value)).

(** [d.get(k)] on a [dict], as an option. *)
Fixpoint lookup {A : Type} (k : string) (d : list (string * A)) : option A :=
  match d with
  | [] => None
  | (k', v) :: rest => if String.eqb k' k then Some v else lookup k rest
  end.

(** [d.get(k, default)]. *)
Definition dict_get {A : Type} (d : list (string * A)) (k : string) (default : A) : A :=
  match lookup k d with
  | Some v => v
  | None => default
  end.

(** [k in d]. *)
Definition dict_has {A : Type} (k : string) (d : list (string * A)) : bool :=
  match lookup k d with
  | Some _ => true
  | None => false
  end.

(** [v == s] for a string literal [s]. *)
Definition value_is_str (v : value) (s : string) : bool :=
  match v with
  | VStr t => String.eqb t s
  | _ => false
  end.

Definition nl : string := String (ascii_of_nat 10) EmptyString.

(** [s * n]. *)
Fixpoint str_mul (s : string) (n : nat) : string :=
  match n with
  | 0 => EmptyString
  | S k => s ++ str_mul s k
  end.

(** [s.split(c)[0]]: the text before the first [c], all of [s] when there is
    none. *)
Fixpoint split_head (c : ascii) (s : string) : string :=
  match s with
  | EmptyString => EmptyString
  | String a rest => if Ascii.eqb a c then EmptyString else String a (split_head c rest)
  end.

(** [str(n)] for a non-negative [int]. *)
Definition str_of_nat (n : nat) : string := NilEmpty.string_of_uint (Nat.to_uint n).

(** [str(x)] for [x] a string or [None]. *)
Definition str_of_opt (x : option string) : string :=
  match x with
  | Some s => s
  | None => "None"
  end.

(** ** Messages *)

Module Performative.
Definition INFORM : string := "inform".
Definition REQUEST : string := "request".
Definition PROPOSE : string := "propose".
Definition ACCEPT : string := "accept-proposal".
Definition REFUSE : string := "refuse".
Definition AGREE : string := "agree".
Definition CONFIRM : string := "confirm".
End Performative.

(** [spade.message.Message]: the fields the behaviours touch.  [sender] and
    [body] are [None] until set. *)
Record Message : Type := mkMessage {
  to : string;
  sender : option string;
  metadata : list (string * string);
  body : option string
}.

(** [msg = Message(to=a); msg.set_metadata("performative", p); msg.body = b]. *)
Definition new_message (a p b : string) : Message :=
  {| to := a; sender := None; metadata := [("performative", p)]; body := Some b |}.

(** ** Runtime, world and effects *)

(** A reading of [datetime.now()], by what [strftime] prints of it:
    ["%Y-%m-%d"] and ["%H:%M:%S"]. *)
Record datetime : Type := mkDatetime { ymd : string; hms : string }.

Definition strftime_time (t : datetime) : string := hms t.
Definition strftime_full (t : datetime) : string := ymd t ++ " " ++ hms t.

Class Runtime : Type := {
  (** [json.loads]; [None] when it raises. *)
  json_loads : string -> option value;
  (** [json.dumps]. *)
  json_dumps : value -> string;
  (** [str.upper]. *)
  str_upper : string -> string;
  (** The k-th reading of [datetime.now()]. *)
  clock : nat -> datetime;
  (** Whether the transport takes the message of the k-th call of [send];
      when it does not, [send] raises. *)
  transport : nat -> Message -> bool
}.

Inductive event : Type :=
| EvRecv (m : Message)              (* receive returned m *)
| EvSend (m : Message)              (* send(m) returned *)
| EvSendFailed (m : Message)        (* send(m) raised *)
| EvWrite (file chunk : string)     (* f.write(chunk) on file opened "a" *)
| EvSleep (secs : nat).             (* asyncio.sleep(secs) returned *)

Record World : Type := mkWorld {
  trace : list event;
  clock_reads : nat;
  send_attempts : nat
}.

Inductive exn : Type := AttributeError | DeliveryError.

(** The outcome of running a method on the object state [S]: it returns or
    raises, and either way the state and the world are as the method left
    them. *)
Inductive Outcome (S A : Type) : Type :=
| Ok (a : A) (s : S) (w : World)
| Raised (e : exn) (s : S) (w : World).
Arguments Ok {S A} a s w.
Arguments Raised {S A} e s w.

Definition M (S A : Type) : Type := S -> World -> Outcome S A.

Definition ret {S A : Type} (a : A) : M S A := fun s w => Ok a s w.

Definition bind {S A B : Type} (m : M S A) (k : A -> M S B) : M S B :=
  fun s w =>
    match m s w with
    | Ok a s' w' => k a s' w'
    | Raised e s' w' => Raised e s' w'
    end.

Definition raise {S A : Type} (e : exn) : M S A := fun s w => Raised e s w.

Definition get_self {S : Type} : M S S := fun s w => Ok s s w.

Definition set_self {S : Type} (s' : S) : M S unit := fun _ w => Ok tt s' w.

Declare Scope py_scope.
Delimit Scope py_scope with py.
Notation "x <- m ;; k" := (bind m (fun x => k))
  (at level 61, m at next level, right associativity) : py_scope.
Notation "m ;; k" := (bind m (fun _ => k))
  (at level 61, right associativity) : py_scope.
Open Scope py_scope.

Definition emit {S : Type} (e : event) : M S unit :=
  fun s w =>
    Ok tt s {| trace := trace w ++ [e];
               clock_reads := clock_reads w;
               send_attempts := send_attempts w |}.

(** [for x in xs: body(x)]. *)
Fixpoint for_each {S A : Type} (xs : list A) (body : A -> M S unit) : M S unit :=
  match xs with
  | [] => ret tt
  | x :: rest => body x ;; for_each rest body
  end.

Section Effects.
Context {rt : Runtime}.
Context {St : Type}.

(** [datetime.now()]. *)
Definition now : M St datetime :=
  fun s w =>
    Ok (clock (clock_reads w)) s
       {| trace := trace w;
          clock_reads := S (clock_reads w);
          send_attempts := send_attempts w |}.

(** [await self.send(msg)]. *)
Definition send (msg : Message) : M St unit :=
  fun s w =>
    let w' e := {| trace := trace w ++ [e];
                   clock_reads := clock_reads w;
                   send_attempts := S (send_attempts w) |} in
    if transport (send_attempts w) msg
    then Ok tt s (w' (EvSend msg))
    else Raised DeliveryError s (w' (EvSendFailed msg)).

(** [msg = await self.receive(timeout=...)]: [inbound] is what arrives
    within the timeout. *)
Definition receive (timeout : nat) (inbound : option Message) : M St (option Message) :=
  match inbound with
  | Some m => emit (EvRecv m) ;; ret (Some m)
  | None => ret None
  end.

(** [await asyncio.sleep(secs)]. *)
Definition sleep (secs : nat) : M St unit := emit (EvSleep secs).

(** [try: content = json.loads(body)  except: content = {"text": body}].
    [json.loads(None)] raises [TypeError], which the bare [except] takes
    like any decoding error. *)
Definition parse_body (b : option string) : value :=
  match b with
  | Some raw =>
      match json_loads raw with
      | Some v => v
      | None => VDict [("text", VStr raw)]
      end
  | None => VDict [("text", VNone)]
  end.

(** The text both [log_message] methods build; [agent_line] is the extra
    line of the field agent's, empty for the coordinator's. *)
Definition log_entry (agent_line : string) (timestamp direction performative
                      other_party : string) (content : option string) : string :=
  (nl ++ str_mul "=" 70 ++ nl)
  ++ ("[" ++ timestamp ++ "] " ++ direction ++ " - " ++ str_upper performative ++ nl)
  ++ (str_mul "-" 70 ++ nl)
  ++ agent_line
  ++ ("From/To: " ++ other_party ++ nl)
  ++ ("Performative: " ++ performative ++ nl)
  ++ ("Content: " ++ str_of_opt content ++ nl)
  ++ (str_mul "=" 70 ++ nl).

End Effects.

(** ** The coordinator *)

Module CoordinatorAgent.

(** The fields of [CoordinatorAgent.CommunicationBehaviour]. *)
Record CommunicationBehaviour : Type := mkBehaviour {
  log_file : string;
  message_count : nat;
  active_missions : list value
}.

(** [__init__(self, log_file)]. *)
Definition init (file : string) : CommunicationBehaviour :=
  {| log_file := file; message_count := 0; active_missions := [] |}.

Section Methods.
Context {rt : Runtime}.

Definition log_message (direction : string) (msg : Message) (other_party : string)
  : M CommunicationBehaviour unit :=
  t <- now ;;
  let performative := dict_get (metadata msg) "performative" "unknown" in
  self <- get_self ;;
  emit (EvWrite (log_file self)
          (log_entry EmptyString (strftime_full t) direction performative other_party (body msg))).

(** The message [dispatch_rescue_team] builds, [t] being the reading
    of the clock for its timestamp. *)
Definition rescue_request (location : value) (t : datetime) : Message :=
  new_message "fieldagent1@404.city" Performative.REQUEST
    (json_dumps (VDict [("request", VStr "deploy_rescue_team");
                        ("location", location);
                        ("priority", VStr "high");
                        ("timestamp", VStr (strftime_time t))])).

Definition dispatch_rescue_team (location : value) : M CommunicationBehaviour unit :=
  t <- now ;;
  let msg := rescue_request location t in
  send msg ;;
  log_message "SENT" msg "fieldagent1".

(** The message [send_status_request] builds for [agent_name]. *)
Definition status_request (agent_name : string) (t : datetime) : Message :=
  new_message (agent_name ++ "@404.city") Performative.REQUEST
    (json_dumps (VDict [("request", VStr "status_update");
                        ("timestamp", VStr (strftime_time t))])).

Definition send_status_request : M CommunicationBehaviour unit :=
  let field_agents := ["fieldagent1"; "fieldagent2"] in
  for_each field_agents (fun agent_name =>
    t <- now ;;
    let msg := status_request agent_name t in
    send msg ;;
    log_message "SENT" msg agent_name).

(** [content.get(...)] in the first [print] raises [AttributeError]
    unless [content] is a [dict]; past it, [content] is one. *)
Definition handle_inform (sender : string) (content : value) : M CommunicationBehaviour unit :=
  match content with
  | VDict d =>
      if dict_has "disaster_detected" d
      then dispatch_rescue_team (dict_get d "location" (VStr "unknown"))
      else ret tt
  | _ => raise AttributeError
  end.

(** The response [handle_request] builds; [action] is
    [content.get('request')]. *)
Definition agree_response (sender : string) (action : value) (t : datetime) : Message :=
  new_message (sender ++ "@404.city") Performative.AGREE
    (json_dumps (VDict [("agreed_action", action);
                        ("timestamp", VStr (strftime_time t))])).

Definition handle_request (sender : string) (content : value) : M CommunicationBehaviour unit :=
  match content with
  | VDict d =>
      t <- now ;;
      let response := agree_response sender (dict_get d "request" VNone) t in
      send response ;;
      log_message "SENT" response sender
  | _ => raise AttributeError
  end.

Definition handle_agree (sender : string) (content : value) : M CommunicationBehaviour unit :=
  match content with
  | VDict d => ret tt
  | _ => raise AttributeError
  end.

Definition handle_incoming_message (msg : Message) : M CommunicationBehaviour unit :=
  let performative := dict_get (metadata msg) "performative" "unknown" in
  let sender := split_head "@" (str_of_opt (sender msg)) in
  log_message "RECEIVED" msg sender ;;
  let content := parse_body (body msg) in
  if String.eqb performative Performative.INFORM then handle_inform sender content
  else if String.eqb performative Performative.REQUEST then handle_request sender content
  else if String.eqb performative Performative.AGREE then handle_agree sender content
  else ret tt.

(** One loop iteration. *)
Definition run (inbound : option Message) : M CommunicationBehaviour unit :=
  msg <- receive 2 inbound ;;
  match msg with
  | Some m =>
      self <- get_self ;;
      set_self {| log_file := log_file self;
                  message_count := message_count self + 1;
                  active_missions := active_missions self |} ;;
      handle_incoming_message m
  | None =>
      self <- get_self ;;
      if (message_count self mod 3 =? 0)%nat then send_status_request else ret tt
  end ;;
  sleep 2.

End Methods.
End CoordinatorAgent.

(** ** The field agent *)

Module FieldAgent.

(** The fields of [FieldAgent.CommunicationBehaviour]. *)
Record CommunicationBehaviour : Type := mkBehaviour {
  log_file : string;
  agent_name : string;
  cycle_count : nat
}.

(** [__init__(self, log_file, agent_name)]. *)
Definition init (file name : string) : CommunicationBehaviour :=
  {| log_file := file; agent_name := name; cycle_count := 0 |}.

Definition disasters : list string := ["Fire"; "Flood"; "Earthquake"; "Building Collapse"].

Section Methods.
Context {rt : Runtime}.

Definition log_message (direction : string) (msg : Message) (other_party : string)
  : M CommunicationBehaviour unit :=
  t <- now ;;
  let performative := dict_get (metadata msg) "performative" "unknown" in
  self <- get_self ;;
  emit (EvWrite (log_file self)
          (log_entry ("Agent: " ++ agent_name self ++ nl)
             (strftime_full t) direction performative other_party (body msg))).

(** The message [send_status_inform] builds. *)
Definition status_inform (self : CommunicationBehaviour) (t : datetime) : Message :=
  new_message "coordinator@404.city" Performative.INFORM
    (json_dumps (VDict [("status", VStr "operational");
                        ("agent", VStr (agent_name self));
                        ("location", VStr ("Zone-" ++ str_of_nat (cycle_count self mod 10)));
                        ("resources", VStr "available");
                        ("timestamp", VStr (strftime_time t))])).

Definition send_status_inform : M CommunicationBehaviour unit :=
  self <- get_self ;;
  t <- now ;;
  let msg := status_inform self t in
  send msg ;;
  log_message "SENT" msg "coordinator".

(** The message [report_disaster] builds. *)
Definition disaster_inform (self : CommunicationBehaviour) (t : datetime) : Message :=
  let disaster_type := nth (cycle_count self mod length disasters) disasters EmptyString in
  new_message "coordinator@404.city" Performative.INFORM
    (json_dumps (VDict [("status", VStr "alert");
                        ("disaster_detected", VStr disaster_type);
                        ("severity", VStr "high");
                        ("location", VStr ("Zone-" ++ str_of_nat (cycle_count self mod 10)));
                        ("timestamp", VStr (strftime_time t))])).

Definition report_disaster : M CommunicationBehaviour unit :=
  self <- get_self ;;
  t <- now ;;
  let msg := disaster_inform self t in
  send msg ;;
  log_message "SENT" msg "coordinator".

(** The response to a [deploy_rescue_team] request; [location] is
    [content.get("location")]. *)
Definition deploy_agree (recipient : string) (location : value) (t : datetime) : Message :=
  new_message recipient Performative.AGREE
    (json_dumps (VDict [("agreed_action", VStr "deploy_rescue_team");
                        ("location", location);
                        ("eta", VStr "5 minutes");
                        ("timestamp", VStr (strftime_time t))])).

(** [content.get("request")] raises [AttributeError] unless [content]
    is a [dict]. *)
Definition handle_incoming_message (msg : Message) : M CommunicationBehaviour unit :=
  let performative := dict_get (metadata msg) "performative" "unknown" in
  let sender_name := split_head "@" (str_of_opt (sender msg)) in
  log_message "RECEIVED" msg sender_name ;;
  let content := parse_body (body msg) in
  if String.eqb performative Performative.REQUEST then
    match content with
    | VDict d =>
        let request_type := dict_get d "request" VNone in
        if value_is_str request_type "status_update" then
          send_status_inform
        else if value_is_str request_type "deploy_rescue_team" then
          t <- now ;;
          let response := deploy_agree (str_of_opt (sender msg))
                            (dict_get d "location" VNone) t in
          send response ;;
          log_message "SENT" response sender_name
        else ret tt
    | _ => raise AttributeError
    end
  else ret tt.

(** One loop iteration. *)
Definition run (inbound : option Message) : M CommunicationBehaviour unit :=
  self <- get_self ;;
  set_self {| log_file := log_file self;
              agent_name := agent_name self;
              cycle_count := cycle_count self + 1 |} ;;
  msg <- receive 2 inbound ;;
  match msg with
  | Some m => handle_incoming_message m
  | None => ret tt
  end ;;
  self <- get_self ;;
  (if (cycle_count self mod 4 =? 0)%nat then send_status_inform else ret tt) ;;
  self <- get_self ;;
  (if (cycle_count self mod 5 =? 0)%nat then report_disaster else ret tt) ;;
  sleep 2.

(** What [run] has done once the counter is advanced and the message of
    the iteration, if any, is handled: its first two steps. *)
Definition receive_and_handle (inbound : option Message) : M CommunicationBehaviour unit :=
  self <- get_self ;;
  set_self {| log_file := log_file self;
              agent_name := agent_name self;
              cycle_count := cycle_count self + 1 |} ;;
  msg <- receive 2 inbound ;;
  match msg with
  | Some m => handle_incoming_message m
  | None => ret tt
  end.

End Methods.
End FieldAgent.

(** ** The loop and what it leaves behind *)

(** The framework calls [run] again and again.  [schedule] gives, per
    iteration, what [receive] returns.  What the framework does when [run]
    raises is its own business: with [resume] it goes on with the next
    iteration, without it the behaviour ends there. *)
Fixpoint run_loop {St : Type} (run : option Message -> M St unit) (resume : bool)
    (schedule : list (option Message)) (s : St) (w : World) : St * World :=
  match schedule with
  | [] => (s, w)
  | inbound :: rest =>
      match run inbound s w with
      | Ok _ s' w' => run_loop run resume rest s' w'
      | Raised _ s' w' => if resume then run_loop run resume rest s' w' else (s', w')
      end
  end.

Definition world_of {St A : Type} (o : Outcome St A) : World :=
  match o with
  | Ok _ _ w => w
  | Raised _ _ w => w
  end.

Definition fresh_world : World := {| trace := []; clock_reads := 0; send_attempts := 0 |}.

(** The object state a method leaves, whether it returned or raised. *)
Definition state_of {St A : Type} (o : Outcome St A) : St :=
  match o with
  | Ok _ s _ => s
  | Raised _ s _ => s
  end.

(** How many iterations of a schedule get a message. *)
Fixpoint arrivals (schedule : list (option Message)) : nat :=
  match schedule with
  | [] => 0
  | Some _ :: rest => S (arrivals rest)
  | None :: rest => arrivals rest
  end.

(** Whether [c] occurs in [s]. *)
Fixpoint has_char (c : ascii) (s : string) : bool :=
  match s with
  | EmptyString => false
  | String a rest => Ascii.eqb a c || has_char c rest
  end.

(** The messages the transport took. *)
Fixpoint sent_messages (evs : list event) : list Message :=
  match evs with
  | [] => []
  | EvSend m :: rest => m :: sent_messages rest
  | _ :: rest => sent_messages rest
  end.

(** The bytes appended to [file]. *)
Fixpoint file_content (file : string) (evs : list event) : string :=
  match evs with
  | [] => EmptyString
  | EvWrite f chunk :: rest =>
      if String.eqb f file then chunk ++ file_content file rest else file_content file rest
  | _ :: rest => file_content file rest
  end.

Definition is_recv (e : event) : bool := match e with EvRecv _ => true | _ => false end.
Definition is_send (e : event) : bool := match e with EvSend _ => true | _ => false end.
Definition is_write (e : event) : bool := match e with EvWrite _ _ => true | _ => false end.
Definition is_sleep (e : event) : bool := match e with EvSleep _ => true | _ => false end.
Definition is_failed (e : event) : bool := match e with EvSendFailed _ => true | _ => false end.

(** The transport takes whatever the next [n] calls of [send] hand it. *)
Definition accepts_next {rt : Runtime} (w : World) (n : nat) : Prop :=
  forall k m, k < n -> transport (send_attempts w + k) m = true.

Definition count (p : event -> bool) (evs : list event) : nat := length (filter p evs).

(** What was appended to the trace between [w] and [w']. *)
Definition since (w w' : World) : list event := skipn (length (trace w)) (trace w').

Definition ends_with_sleep (evs : list event) : bool :=
  match rev evs with
  | EvSleep _ :: _ => true
  | _ => false
  end.

(** An iteration that started in [w] and came out as [o] caught nothing:
    it returned, after its sleep, only if no send failed; and if it raised,
    the exception is that of the one failed send, or an [AttributeError]
    with no failed send, the sleep was not reached, and what was written
    to the log is one entry per message received or sent, nothing about
    the failure. *)
Definition uncaught {St : Type} (w : World) (o : Outcome St unit) : Prop :=
  let evs := since w (world_of o) in
  trace (world_of o) = (trace w ++ evs)%list /\
  count is_write evs = count is_recv evs + count is_send evs /\
  match o with
  | Ok _ _ _ =>
      count is_failed evs = 0 /\ count is_sleep evs = 1 /\ ends_with_sleep evs = true
  | Raised e _ _ =>
      count is_sleep evs = 0 /\
      (e = DeliveryError <-> count is_failed evs = 1) /\
      (e = AttributeError <-> count is_failed evs = 0)
  end.

(** The same run with [pre] already in the trace. *)
Definition shift (pre : list event) (w : World) : World :=
  {| trace := pre ++ trace w;
     clock_reads := clock_reads w;
     send_attempts := send_attempts w |}.

Definition shift_outcome {St A : Type} (pre : list event) (o : Outcome St A) : Outcome St A :=
  match o with
  | Ok a s w => Ok a s (shift pre w)
  | Raised e s w => Raised e s (shift pre w)
  end.

(** A method whose effect does not depend on what is already in the trace. *)
Definition framed {St A : Type} (m : M St A) : Prop :=
  forall pre s w, m s (shift pre w) = shift_outcome pre (m s w).

Section Audit.
Context {rt : Runtime}.

Definition performative_of (m : Message) : string :=
  dict_get (metadata m) "performative" "unknown".

(** The log entry of a message, as [log_message] writes it. *)
Definition entry_of (agent_line : string) (t : datetime) (direction : string)
    (m : Message) (other_party : string) : string :=
  log_entry agent_line (strftime_full t) direction (performative_of m) other_party (body m).

(** A stretch of trace in which every message received is followed at
    once by its one RECEIVED entry, every message sent by its one SENT
    entry, both built by [entry_of], and nothing else is written. *)
Inductive audited (agent_line file : string) : list event -> Prop :=
| audited_nil : audited agent_line file []
| audited_recv m t party rest :
    audited agent_line file rest ->
    audited agent_line file
      (EvRecv m :: EvWrite file (entry_of agent_line t "RECEIVED" m party) :: rest)
| audited_sent m t party rest :
    audited agent_line file rest ->
    audited agent_line file
      (EvSend m :: EvWrite file (entry_of agent_line t "SENT" m party) :: rest)
| audited_failed m rest :
    audited agent_line file rest -> audited agent_line file (EvSendFailed m :: rest)
| audited_sleep n rest :
    audited agent_line file rest -> audited agent_line file (EvSleep n :: rest).

End Audit.

Definition is_dict (v : value) : bool :=
  match v with
  | VDict _ => true
  | _ => false
  end.

(** The handler of the iteration's message fails in the coordinator: the
    performative is one whose handler reads the payload with
    [content.get] (all three do, in their first line) and the payload is
    no [dict]. *)
Definition coordinator_handler_fails {rt : Runtime} (inbound : option Message) : bool :=
  match inbound with
  | Some m =>
      (String.eqb (performative_of m) Performative.INFORM
       || String.eqb (performative_of m) Performative.REQUEST
       || String.eqb (performative_of m) Performative.AGREE)
      && negb (is_dict (parse_body (body m)))
  | None => false
  end.

(** The same for the field agent, which reads the payload of a REQUEST
    only. *)
Definition field_handler_fails {rt : Runtime} (inbound : option Message) : bool :=
  match inbound with
  | Some m =>
      String.eqb (performative_of m) Performative.REQUEST
      && negb (is_dict (parse_body (body m)))
  | None => false
  end.

Definition ends_with_failed_send (evs : list event) : bool :=
  match rev evs with
  | EvSendFailed _ :: _ => true
  | _ => false
  end.

(** How an iteration that started in [w] ended, told by its outcome [o]:
    it returned only if the handler did not fail and no send failed, and
    then it slept last; it raised [AttributeError] only if the handler
    failed, and then receiving the message and writing its RECEIVED entry
    [entry] is all it did; it raised [DeliveryError] only if the handler
    did not fail, and then the failed send is the last thing it did. *)
Definition ended_as {St : Type} (handler_fails : bool) (received : list event)
    (w : World) (o : Outcome St unit) : Prop :=
  match o with
  | Ok _ _ w' =>
      handler_fails = false
      /\ count is_failed (since w w') = 0
      /\ ends_with_sleep (since w w') = true
  | Raised AttributeError _ w' =>
      handler_fails = true /\ since w w' = received
  | Raised DeliveryError _ w' =>
      handler_fails = false
      /\ count is_failed (since w w') = 1
      /\ ends_with_failed_send (since w w') = true
      /\ count is_sleep (since w w') = 0
  end.

(** What an iteration has done when it has received [inbound] and written
    its RECEIVED entry. *)
Definition received_and_logged {rt : Runtime} (agent_line file : string) (w : World)
    (inbound : option Message) : list event :=
  match inbound with
  | Some m =>
      [EvRecv m;
       EvWrite file (entry_of agent_line (clock (clock_reads w)) "RECEIVED" m
                       (split_head "@" (str_of_opt (sender m))))]
  | None => []
  end.

(** Two runtimes that give the same answers: the same library, the same
    readings of the clock, the same answers of the transport. *)
Definition same_answers (rt1 rt2 : Runtime) : Prop :=
  (forall raw, @json_loads rt1 raw = @json_loads rt2 raw)
  /\ (forall v, @json_dumps rt1 v = @json_dumps rt2 v)
  /\ (forall t, @str_upper rt1 t = @str_upper rt2 t)
  /\ (forall k, @clock rt1 k = @clock rt2 k)
  /\ (forall k m, @transport rt1 k m = @transport rt2 k m).

(** ** A runtime to compute with

    A decoder and an encoder for the part of JSON the examples use: [null],
    [true], [false], integers of ordinary length, strings of printable
    ASCII with neither a double quote nor a backslash in them, arrays and
    objects, with JSON's white space.  On such text and such values they
    answer as Python's [json.loads] and [json.dumps] do.  The decoder
    answers [None] on all other text, also where Python's accepts it
    (floats, escapes, [NaN]); no general statement below rests on it. *)
Module Json.

Definition is_ws (c : ascii) : bool :=
  let n := nat_of_ascii c in
  (n =? 32)%nat || (n =? 9)%nat || (n =? 10)%nat || (n =? 13)%nat.

Definition is_digit (c : ascii) : bool :=
  let n := nat_of_ascii c in (48 <=? n)%nat && (n <=? 57)%nat.

Fixpoint skip_ws (s : string) : string :=
  match s with
  | String c rest => if is_ws c then skip_ws rest else s
  | EmptyString => EmptyString
  end.

Fixpoint strip_prefix (p s : string) : option string :=
  match p, s with
  | EmptyString, _ => Some s
  | String a p', String b s' => if Ascii.eqb a b then strip_prefix p' s' else None
  | String _ _, EmptyString => None
  end.

(** The characters of a string literal after its opening quote, and what
    follows the closing quote. *)
Fixpoint scan_string (s : string) : option (string * string) :=
  match s with
  | EmptyString => None
  | String c rest =>
      if Ascii.eqb c "034"%char then Some (EmptyString, rest)
      else if Ascii.eqb c "\"%char then None
      else if (nat_of_ascii c <? 32)%nat || (127 <=? nat_of_ascii c)%nat then None
      else match scan_string rest with
           | Some (t, rest') => Some (String c t, rest')
           | None => None
           end
  end.

Fixpoint scan_digits (acc : Z) (s : string) : Z * string :=
  match s with
  | String c rest =>
      if is_digit c
      then scan_digits (10 * acc + Z.of_nat (nat_of_ascii c - 48)) rest
      else (acc, s)
  | EmptyString => (acc, s)
  end.

Definition starts_fraction (s : string) : bool :=
  match s with
  | String c _ => Ascii.eqb c "."%char || Ascii.eqb c "e"%char || Ascii.eqb c "E"%char
  | EmptyString => false
  end.

(** An optional minus sign, then 0 or a digit string without leading 0,
    not followed by a fraction or an exponent. *)
Definition scan_int (s : string) : option (Z * string) :=
  let '(neg, s1) := match s with
                    | String "-"%char rest => (true, rest)
                    | _ => (false, s)
                    end in
  match s1 with
  | String c rest =>
      if is_digit c then
        let '(n, s2) := if Ascii.eqb c "0"%char then (0%Z, rest) else scan_digits 0 s1 in
        if starts_fraction s2 then None
        else Some (if neg then (- n)%Z else n, s2)
      else None
  | EmptyString => None
  end.

(** [d[k] = v] on a [dict]. *)
Fixpoint dict_set (d : list (string * value)) (k : string) (v : value)
    : list (string * value) :=
  match d with
  | [] => [(k, v)]
  | (k', v') :: rest =>
      if String.eqb k' k then (k', v) :: rest else (k', v') :: dict_set rest k v
  end.

Fixpoint parse_value (fuel : nat) (s : string) : option (value * string) :=
  match fuel with
  | 0 => None
  | S fuel' =>
      match skip_ws s with
      | String "n"%char _ =>
          option_map (fun r => (VNone, r)) (strip_prefix "null" (skip_ws s))
      | String "t"%char _ =>
          option_map (fun r => (VBool true, r)) (strip_prefix "true" (skip_ws s))
      | String "f"%char _ =>
          option_map (fun r => (VBool false, r)) (strip_prefix "false" (skip_ws s))
      | String "034"%char rest =>
          option_map (fun '(t, r) => (VStr t, r)) (scan_string rest)
      | String "["%char rest =>
          match skip_ws rest with
          | String "]"%char rest' => Some (VList [], rest')
          | _ => option_map (fun '(l, r) => (VList l, r)) (parse_elements fuel' rest)
          end
      | String "{"%char rest =>
          match skip_ws rest with
          | String "}"%char rest' => Some (VDict [], rest')
          | _ => option_map (fun '(d, r) => (VDict d, r)) (parse_members fuel' [] rest)
          end
      | _ => option_map (fun '(n, r) => (VInt n, r)) (scan_int (skip_ws s))
      end
  end
with parse_elements (fuel : nat) (s : string) : option (list value * string) :=
  match fuel with
  | 0 => None
  | S fuel' =>
      match parse_value fuel' s with
      | Some (v, rest) =>
          match skip_ws rest with
          | String "]"%char rest' => Some ([v], rest')
          | String ","%char rest' =>
              option_map (fun '(l, r) => (v :: l, r)) (parse_elements fuel' rest')
          | _ => None
          end
      | None => None
      end
  end
with parse_members (fuel : nat) (acc : list (string * value)) (s : string)
    : option (list (string * value) * string) :=
  match fuel with
  | 0 => None
  | S fuel' =>
      match skip_ws s with
      | String "034"%char rest =>
          match scan_string rest with
          | Some (k, rest1) =>
              match skip_ws rest1 with
              | String ":"%char rest2 =>
                  match parse_value fuel' rest2 with
                  | Some (v, rest3) =>
                      match skip_ws rest3 with
                      | String "}"%char rest' => Some (dict_set acc k v, rest')
                      | String ","%char rest' => parse_members fuel' (dict_set acc k v) rest'
                      | _ => None
                      end
                  | None => None
                  end
              | _ => None
              end
          | None => None
          end
      | _ => None
      end
  end.

Definition loads (s : string) : option value :=
  match parse_value (String.length s + 1) s with
  | Some (v, rest) =>
      match skip_ws rest with
      | EmptyString => Some v
      | _ => None
      end
  | None => None
  end.

Definition quote (s : string) : string :=
  String "034"%char EmptyString ++ s ++ String "034"%char EmptyString.

Fixpoint dumps (v : value) : string :=
  match v with
  | VNone => "null"
  | VBool true => "true"
  | VBool false => "false"
  | VInt z => NilEmpty.string_of_int (Z.to_int z)
  | VFloat r => r
  | VStr s => quote s
  | VList l =>
      "[" ++ (fix items (l : list value) : string :=
                match l with
                | [] => EmptyString
                | x :: rest =>
                    dumps x ++ match rest with
                               | [] => EmptyString
                               | _ :: _ => ", " ++ items rest
                               end
                end) l ++ "]"
  | VDict d =>
      "{" ++ (fix items (d : list (string * value)) : string :=
                match d with
                | [] => EmptyString
                | (k, x) :: rest =>
                    quote k ++ ": " ++ dumps x ++ match rest with
                                                  | [] => EmptyString
                                                  | _ :: _ => ", " ++ items rest
                                                  end
                end) d ++ "}"
  end.

(** [str.upper] on ASCII. *)
Definition upper_char (c : ascii) : ascii :=
  let n := nat_of_ascii c in
  if (97 <=? n)%nat && (n <=? 122)%nat then ascii_of_nat (n - 32) else c.

Fixpoint upper (s : string) : string :=
  match s with
  | EmptyString => EmptyString
  | String c rest => String (upper_char c) (upper rest)
  end.

End Json.

(** A runtime with the decoder and encoder above, a clock that always reads
    [t], and a transport that answers [up] to every call. *)
Definition simple_runtime (t : datetime) (up : bool) : Runtime :=
  {| json_loads := Json.loads;
     json_dumps := Json.dumps;
     str_upper := Json.upper;
     clock := fun _ => t;
     transport := fun _ _ => up |}.

Definition noon : datetime := {| ymd := "2025-03-01"; hms := "12:00:00" |}.

(** Messages to compute with. *)

(** A field agent's disaster report, as [FieldAgent.report_disaster] words it. *)
Definition fire_report : Message :=
  {| to := "coordinator@404.city";
     sender := Some "fieldagent1@404.city";
     metadata := [("performative", Performative.INFORM)];
     body := Some (Json.dumps (VDict [("status", VStr "alert");
                                      ("disaster_detected", VStr "Fire");
                                      ("severity", VStr "high");
                                      ("location", VStr "Zone-3");
                                      ("timestamp", VStr "11:59:58")])) |}.

(** A REQUEST for [action] from the address [from]. *)
Definition request_from (from recipient : string) (payload : value) : Message :=
  {| to := recipient;
     sender := Some from;
     metadata := [("performative", Performative.REQUEST)];
     body := Some (Json.dumps payload) |}.

Definition status_query (from recipient : string) : Message :=
  request_from from recipient
    (VDict [("request", VStr "status_update"); ("timestamp", VStr "11:59:58")]).

Definition deploy_order : Message :=
  request_from "coordinator@404.city" "fieldagent1@404.city"
    (VDict [("request", VStr "deploy_rescue_team");
            ("location", VStr "Zone-7");
            ("priority", VStr "high");
            ("timestamp", VStr "11:59:58")]).

(** A field agent's AGREE to a dispatch, as the coordinator receives it. *)
Definition agree_reply : Message :=
  {| to := "coordinator@404.city";
     sender := Some "fieldagent1@404.city";
     metadata := [("performative", Performative.AGREE)];
     body := Some (Json.dumps (VDict [("agreed_action", VStr "deploy_rescue_team");
                                      ("location", VStr "Zone-7");
                                      ("eta", VStr "5 minutes");
                                      ("timestamp", VStr "11:59:58")])) |}.

(** A field agent's status report, as [FieldAgent.send_status_inform] words it. *)
Definition status_report : Message :=
  {| to := "coordinator@404.city";
     sender := Some "fieldagent2@404.city";
     metadata := [("performative", Performative.INFORM)];
     body := Some (Json.dumps (VDict [("status", VStr "operational");
                                      ("agent", VStr "FieldAgent2");
                                      ("location", VStr "Zone-4");
                                      ("resources", VStr "available");
                                      ("timestamp", VStr "11:59:58")])) |}.

(** A message with performative [p] and the raw body [text]. *)
Definition raw_message (from recipient p text : string) : Message :=
  {| to := recipient;
     sender := Some from;
     metadata := [("performative", p)];
     body := Some text |}.

(** A REQUEST whose body is the JSON text of an empty array. *)
Definition array_request (from recipient : string) : Message :=
  request_from from recipient (VList []).

(** * Properties *)

Example loads_object :
  Json.loads ("{" ++ Json.quote "request" ++ ": " ++ Json.quote "deploy_rescue_team" ++ ", "
                  ++ Json.quote "location" ++ ": " ++ Json.quote "Zone-7" ++ "}")
  = Some (VDict [("request", VStr "deploy_rescue_team"); ("location", VStr "Zone-7")]).
Proof. vm_compute. reflexivity. Qed.

(** ** Traces *)

Lemma sent_messages_app (xs ys : list event) :
  sent_messages (xs ++ ys) = (sent_messages xs ++ sent_messages ys)%list.
Proof.
  induction xs as [|e xs IH]; simpl; [reflexivity|].
  destruct e; simpl; rewrite IH; reflexivity.
Qed.

Lemma string_app_assoc (a b c : string) : ((a ++ b) ++ c = a ++ (b ++ c))%string.
Proof.
  induction a as [|ch a IH]; simpl; [reflexivity|].
  rewrite IH. reflexivity.
Qed.

Lemma file_content_app (file : string) (xs ys : list event) :
  file_content file (xs ++ ys) = (file_content file xs ++ file_content file ys)%string.
Proof.
  induction xs as [|e xs IH]; simpl; [reflexivity|].
  destruct e; simpl; try exact IH.
  destruct (String.eqb file0 file); [|exact IH].
  rewrite IH. symmetry. apply string_app_assoc.
Qed.

Lemma count_app (p : event -> bool) (xs ys : list event) :
  count p (xs ++ ys) = count p xs + count p ys.
Proof.
  unfold count. rewrite filter_app, length_app. reflexivity.
Qed.

Lemma split_head_app (c : ascii) (name rest : string) :
  split_head c name = name ->
  split_head c (name ++ String c rest) = name.
Proof.
  induction name as [|a name IH]; simpl; intros H.
  - rewrite Ascii.eqb_refl. reflexivity.
  - destruct (Ascii.eqb a c); [discriminate|].
    injection H as H. rewrite (IH H). reflexivity.
Qed.

(** ** Methods do not look at the trace *)

Section Framing.
Context {rt : Runtime}.
Context {St : Type}.

Lemma framed_ret {A : Type} (a : A) : framed (ret (S := St) a).
Proof. intros pre s w. reflexivity. Qed.

Lemma framed_raise {A : Type} (e : exn) : framed (raise (S := St) (A := A) e).
Proof. intros pre s w. reflexivity. Qed.

Lemma framed_get_self : framed (get_self (S := St)).
Proof. intros pre s w. reflexivity. Qed.

Lemma framed_set_self (s' : St) : framed (set_self s').
Proof. intros pre s w. reflexivity. Qed.

Lemma framed_bind {A B : Type} (m : M St A) (k : A -> M St B) :
  framed m -> (forall a, framed (k a)) -> framed (bind m k).
Proof.
  intros Hm Hk pre s w. unfold bind. rewrite Hm.
  destruct (m s w) as [a s' w'|e s' w']; simpl; [apply Hk | reflexivity].
Qed.

Lemma framed_emit (e : event) : framed (emit (S := St) e).
Proof.
  intros pre s w. destruct w as [tr k a].
  cbv [emit shift shift_outcome trace clock_reads send_attempts].
  rewrite app_assoc. reflexivity.
Qed.

Lemma framed_now : framed (now (St := St)).
Proof. intros pre s w. reflexivity. Qed.

Lemma framed_send (msg : Message) : framed (send (St := St) msg).
Proof.
  intros pre s w. cbv [send shift shift_outcome trace clock_reads send_attempts].
  destruct w as [tr k a]. destruct (transport a msg); rewrite app_assoc; reflexivity.
Qed.

Lemma framed_receive (timeout : nat) (inbound : option Message) :
  framed (receive (St := St) timeout inbound).
Proof.
  destruct inbound; simpl.
  - apply framed_bind; [apply framed_emit | intros; apply framed_ret].
  - apply framed_ret.
Qed.

Lemma framed_sleep (secs : nat) : framed (sleep (St := St) secs).
Proof. apply framed_emit. Qed.

Lemma framed_for_each {A : Type} (xs : list A) (body : A -> M St unit) :
  (forall x, framed (body x)) -> framed (for_each xs body).
Proof.
  intros Hb. induction xs as [|x xs IH]; simpl.
  - apply framed_ret.
  - apply framed_bind; [apply Hb | intros; exact IH].
Qed.

Lemma run_loop_shift (run : option Message -> M St unit) (resume : bool)
    (schedule : list (option Message)) :
  (forall inbound, framed (run inbound)) ->
  forall pre s w,
    run_loop run resume schedule s (shift pre w)
    = (fst (run_loop run resume schedule s w),
       shift pre (snd (run_loop run resume schedule s w))).
Proof.
  intros Hrun pre. induction schedule as [|inbound rest IH]; intros s w; simpl.
  - reflexivity.
  - rewrite Hrun. destruct (run inbound s w) as [a s' w'|e s' w']; simpl.
    + apply IH.
    + destruct resume; [apply IH | reflexivity].
Qed.

End Framing.

Ltac framed_step :=
  first
    [ apply framed_bind
    | apply framed_ret
    | apply framed_raise
    | apply framed_get_self
    | apply framed_set_self
    | apply framed_emit
    | apply framed_now
    | apply framed_send
    | apply framed_receive
    | apply framed_sleep
    | apply framed_for_each
    | match goal with
      | |- framed (if ?b then _ else _) => destruct b
      | |- framed (match ?x with _ => _ end) => destruct x
      | |- forall _, _ => intro
      end ].

Section FramedMethods.
Context {rt : Runtime}.

Lemma framed_coordinator_log direction msg other_party :
  framed (CoordinatorAgent.log_message direction msg other_party).
Proof. unfold CoordinatorAgent.log_message. repeat framed_step. Qed.

Lemma framed_coordinator_handle msg :
  framed (CoordinatorAgent.handle_incoming_message msg).
Proof.
  unfold CoordinatorAgent.handle_incoming_message, CoordinatorAgent.handle_inform,
    CoordinatorAgent.handle_request, CoordinatorAgent.handle_agree,
    CoordinatorAgent.dispatch_rescue_team.
  repeat first [apply framed_coordinator_log | framed_step].
Qed.

Lemma framed_coordinator_run inbound : framed (CoordinatorAgent.run inbound).
Proof.
  unfold CoordinatorAgent.run, CoordinatorAgent.send_status_request.
  repeat first [apply framed_coordinator_log | apply framed_coordinator_handle | framed_step].
Qed.

Lemma framed_field_log direction msg other_party :
  framed (FieldAgent.log_message direction msg other_party).
Proof. unfold FieldAgent.log_message. repeat framed_step. Qed.

Lemma framed_field_status : framed FieldAgent.send_status_inform.
Proof.
  unfold FieldAgent.send_status_inform. repeat first [apply framed_field_log | framed_step].
Qed.

Lemma framed_field_disaster : framed FieldAgent.report_disaster.
Proof.
  unfold FieldAgent.report_disaster. repeat first [apply framed_field_log | framed_step].
Qed.

Lemma framed_field_handle msg : framed (FieldAgent.handle_incoming_message msg).
Proof.
  unfold FieldAgent.handle_incoming_message.
  repeat first [apply framed_field_log | apply framed_field_status | framed_step].
Qed.

Lemma framed_field_run inbound : framed (FieldAgent.run inbound).
Proof.
  unfold FieldAgent.run.
  repeat first [apply framed_field_log | apply framed_field_status
               | apply framed_field_disaster | apply framed_field_handle | framed_step].
Qed.

End FramedMethods.

(** ** Running a method *)

Ltac exec :=
  cbv [bind ret raise get_self set_self emit now send receive sleep for_each
       CoordinatorAgent.run CoordinatorAgent.send_status_request
       CoordinatorAgent.handle_incoming_message CoordinatorAgent.handle_inform
       CoordinatorAgent.handle_request CoordinatorAgent.handle_agree
       CoordinatorAgent.dispatch_rescue_team CoordinatorAgent.log_message
       FieldAgent.run FieldAgent.receive_and_handle FieldAgent.handle_incoming_message
       FieldAgent.send_status_inform FieldAgent.report_disaster FieldAgent.log_message
       trace clock_reads send_attempts world_of
       CoordinatorAgent.log_file CoordinatorAgent.message_count
       CoordinatorAgent.active_missions
       FieldAgent.log_file FieldAgent.agent_name FieldAgent.cycle_count].

Lemma accepts_next_0 {rt : Runtime} (w : World) (n : nat) (m : Message) :
  accepts_next w (S n) -> transport (send_attempts w) m = true.
Proof.
  intros H. specialize (H 0 m). rewrite Nat.add_0_r in H. apply H. lia.
Qed.

Lemma accepts_next_1 {rt : Runtime} (w : World) (n : nat) (m : Message) :
  accepts_next w (S (S n)) -> transport (S (send_attempts w)) m = true.
Proof.
  intros H. specialize (H 1 m). rewrite Nat.add_1_r in H. apply H. lia.
Qed.

(** ** The coordinator's proactive trigger *)

Section CoordinatorTrigger.
Context {rt : Runtime}.

(** C1, as the code has it.  In an iteration without inbound message the
    coordinator sends a status-update REQUEST to fieldagent1 and to
    fieldagent2, each logged, exactly when the number of messages it has
    received so far is a multiple of 3; otherwise it only sleeps.  The
    number of the iteration plays no part. *)
Theorem coordinator_trigger_on_message_count
    (s : CoordinatorAgent.CommunicationBehaviour) (w : World) :
  accepts_next w 2 ->
  let k := clock_reads w in
  let r1 := CoordinatorAgent.status_request "fieldagent1" (clock k) in
  let r2 := CoordinatorAgent.status_request "fieldagent2" (clock (S (S k))) in
  let file := CoordinatorAgent.log_file s in
  (CoordinatorAgent.message_count s mod 3 = 0 ->
   CoordinatorAgent.run None s w
   = Ok tt s {| trace := trace w ++ [EvSend r1;
                                     EvWrite file (entry_of EmptyString (clock (S k)) "SENT" r1 "fieldagent1");
                                     EvSend r2;
                                     EvWrite file (entry_of EmptyString (clock (S (S (S k)))) "SENT" r2 "fieldagent2");
                                     EvSleep 2];
                clock_reads := S (S (S (S k)));
                send_attempts := S (S (send_attempts w)) |})
  /\ (CoordinatorAgent.message_count s mod 3 <> 0 ->
      CoordinatorAgent.run None s w
      = Ok tt s {| trace := trace w ++ [EvSleep 2];
                   clock_reads := k;
                   send_attempts := send_attempts w |}).
Proof.
  intros Hnet k r1 r2 file. subst k r1 r2 file.
  destruct s as [file n missions]. destruct w as [tr k a].
  split; intros Hcount; cbn [CoordinatorAgent.message_count] in Hcount; exec.
  - rewrite Hcount. cbn [Nat.eqb].
    rewrite (accepts_next_0 _ 1 _ Hnet). exec.
    rewrite (accepts_next_1 _ 0 _ Hnet). exec.
    repeat rewrite <- app_assoc. reflexivity.
  - apply Nat.eqb_neq in Hcount. rewrite Hcount. reflexivity.
Qed.

End CoordinatorTrigger.

(** The first iterations of a fresh coordinator that hears nothing. *)
Lemma coordinator_trigger_on_message_count_witness :
  let rt := simple_runtime noon true in
  let s := CoordinatorAgent.init "coordinator_messages.log" in
  accepts_next fresh_world 2
  /\ sent_messages (trace (world_of (CoordinatorAgent.run None s fresh_world)))
     = [CoordinatorAgent.status_request "fieldagent1" noon;
        CoordinatorAgent.status_request "fieldagent2" noon].
Proof.
  intros rt s.
  assert (Hnet : accepts_next fresh_world 2) by (intros k m _; reflexivity).
  split; [exact Hnet|].
  destruct (coordinator_trigger_on_message_count (rt := rt) s fresh_world Hnet) as [Hfire _].
  rewrite (Hfire eq_refl). reflexivity.
Defined.

(** C1 as stated fails: iterations 1 and 2 of a fresh coordinator are not
    3rd iterations, no message arrives in them, and in each the coordinator
    sends its two status requests. *)
Lemma coordinator_trigger_not_every_third :
  let rt := simple_runtime noon true in
  let r1 := CoordinatorAgent.status_request "fieldagent1" noon in
  let r2 := CoordinatorAgent.status_request "fieldagent2" noon in
  1 mod 3 <> 0 /\ 2 mod 3 <> 0 /\
  sent_messages
    (trace (snd (run_loop CoordinatorAgent.run false [None]
                   (CoordinatorAgent.init "coordinator_messages.log") fresh_world)))
  = [r1; r2] /\
  sent_messages
    (trace (snd (run_loop CoordinatorAgent.run false [None; None]
                   (CoordinatorAgent.init "coordinator_messages.log") fresh_world)))
  = [r1; r2; r1; r2].
Proof.
  intros rt r1 r2. repeat split; try discriminate; vm_compute; reflexivity.
Qed.

(** ** The coordinator's handlers *)

Section CoordinatorHandlers.
Context {rt : Runtime}.

(** C2.  When the coordinator receives an INFORM whose payload is a
    mapping with the key [disaster_detected], the iteration sends exactly
    one message: a REQUEST with action [deploy_rescue_team], the reported
    location (["unknown"] when there is none) and priority [high].  It
    goes to fieldagent1@404.city whatever the location is. *)
Theorem coordinator_dispatches_rescue
    (m : Message) (d : list (string * value))
    (s : CoordinatorAgent.CommunicationBehaviour) (w : World) :
  performative_of m = Performative.INFORM ->
  parse_body (body m) = VDict d ->
  dict_has "disaster_detected" d = true ->
  accepts_next w 1 ->
  let k := clock_reads w in
  let file := CoordinatorAgent.log_file s in
  let party := split_head "@" (str_of_opt (sender m)) in
  let location := dict_get d "location" (VStr "unknown") in
  let req := CoordinatorAgent.rescue_request location (clock (S k)) in
  CoordinatorAgent.run (Some m) s w
  = Ok tt
      {| CoordinatorAgent.log_file := file;
         CoordinatorAgent.message_count := CoordinatorAgent.message_count s + 1;
         CoordinatorAgent.active_missions := CoordinatorAgent.active_missions s |}
      {| trace := trace w ++ [EvRecv m;
                              EvWrite file (entry_of EmptyString (clock k) "RECEIVED" m party);
                              EvSend req;
                              EvWrite file (entry_of EmptyString (clock (S (S k))) "SENT" req "fieldagent1");
                              EvSleep 2];
         clock_reads := S (S (S k));
         send_attempts := S (send_attempts w) |}
  /\ to req = "fieldagent1@404.city"
  /\ performative_of req = Performative.REQUEST
  /\ body req = Some (json_dumps (VDict [("request", VStr "deploy_rescue_team");
                                         ("location", location);
                                         ("priority", VStr "high");
                                         ("timestamp", VStr (strftime_time (clock (S k))))])).
Proof.
  intros Hperf Hbody Hkey Hnet k file party location req.
  subst k file party location req.
  split; [|repeat split].
  destruct s as [file n missions]. destruct w as [tr k a].
  unfold performative_of in Hperf. cbn [body] in Hbody.
  exec. rewrite Hperf, Hbody.
  change (String.eqb Performative.INFORM Performative.INFORM) with true. exec.
  rewrite Hkey. exec. rewrite (accepts_next_0 _ 0 _ Hnet). exec.
  unfold entry_of, performative_of. rewrite ?Hperf.
  repeat rewrite <- app_assoc. reflexivity.
Qed.

(** The coordinator's answer to a REQUEST whose payload is a mapping.  The
    iteration sends exactly one message: an AGREE whose [agreed_action] is
    the requested action ([null] when the payload names none) with a
    timestamp.  Its recipient is the text before the first [@] of the
    sender's address, followed by [@404.city]; that is the sender's address
    when the sender is a bare address of the domain 404.city. *)
Theorem coordinator_agrees_to_request
    (m : Message) (d : list (string * value))
    (s : CoordinatorAgent.CommunicationBehaviour) (w : World) :
  performative_of m = Performative.REQUEST ->
  parse_body (body m) = VDict d ->
  accepts_next w 1 ->
  let k := clock_reads w in
  let file := CoordinatorAgent.log_file s in
  let party := split_head "@" (str_of_opt (sender m)) in
  let action := dict_get d "request" VNone in
  let resp := CoordinatorAgent.agree_response party action (clock (S k)) in
  CoordinatorAgent.run (Some m) s w
  = Ok tt
      {| CoordinatorAgent.log_file := file;
         CoordinatorAgent.message_count := CoordinatorAgent.message_count s + 1;
         CoordinatorAgent.active_missions := CoordinatorAgent.active_missions s |}
      {| trace := trace w ++ [EvRecv m;
                              EvWrite file (entry_of EmptyString (clock k) "RECEIVED" m party);
                              EvSend resp;
                              EvWrite file (entry_of EmptyString (clock (S (S k))) "SENT" resp party);
                              EvSleep 2];
         clock_reads := S (S (S k));
         send_attempts := S (send_attempts w) |}
  /\ to resp = party ++ "@404.city"
  /\ performative_of resp = Performative.AGREE
  /\ body resp = Some (json_dumps (VDict [("agreed_action", action);
                                          ("timestamp", VStr (strftime_time (clock (S k))))]))
  /\ (forall name : string,
        split_head "@" name = name ->
        sender m = Some (name ++ "@404.city") ->
        Some (to resp) = sender m).
Proof.
  intros Hperf Hbody Hnet k file party action resp.
  subst k file party action resp.
  split; [|repeat split].
  - destruct s as [file n missions]. destruct w as [tr k a].
    unfold performative_of in Hperf. cbn [body] in Hbody.
    exec. rewrite Hperf, Hbody.
    change (String.eqb Performative.REQUEST Performative.INFORM) with false.
    change (String.eqb Performative.REQUEST Performative.REQUEST) with true. exec.
    rewrite (accepts_next_0 _ 0 _ Hnet). exec.
    unfold entry_of, performative_of. rewrite ?Hperf.
    repeat rewrite <- app_assoc. reflexivity.
  - intros name Hname Hsender. rewrite Hsender. cbn [str_of_opt to CoordinatorAgent.agree_response new_message].
    change (name ++ "@404.city") with (name ++ String "@" "404.city").
    rewrite (split_head_app "@" name "404.city" Hname). reflexivity.
Qed.

End CoordinatorHandlers.

Lemma simple_runtime_accepts (t : datetime) (w : World) (n : nat) :
  accepts_next (rt := simple_runtime t true) w n.
Proof. intros k m _. reflexivity. Qed.

(** A fire in Zone-3 is reported: one REQUEST goes out, for Zone-3. *)
Lemma coordinator_dispatches_rescue_witness :
  let rt := simple_runtime noon true in
  let s := CoordinatorAgent.init "coordinator_messages.log" in
  sent_messages (trace (world_of (CoordinatorAgent.run (Some fire_report) s fresh_world)))
  = [CoordinatorAgent.rescue_request (VStr "Zone-3") noon].
Proof.
  intros rt s.
  assert (Hperf : performative_of fire_report = Performative.INFORM) by reflexivity.
  assert (Hbody : parse_body (body fire_report)
                  = VDict [("status", VStr "alert"); ("disaster_detected", VStr "Fire");
                           ("severity", VStr "high"); ("location", VStr "Zone-3");
                           ("timestamp", VStr "11:59:58")])
    by (vm_compute; reflexivity).
  destruct (coordinator_dispatches_rescue (rt := rt) fire_report _ s fresh_world Hperf Hbody eq_refl
              (simple_runtime_accepts noon fresh_world 1)) as [Hrun _].
  rewrite Hrun. reflexivity.
Defined.

(** fieldagent2 asks for a status update and gets the AGREE. *)
Lemma coordinator_agrees_to_request_witness :
  let rt := simple_runtime noon true in
  let s := CoordinatorAgent.init "coordinator_messages.log" in
  let m := status_query "fieldagent2@404.city" "coordinator@404.city" in
  sent_messages (trace (world_of (CoordinatorAgent.run (Some m) s fresh_world)))
  = [CoordinatorAgent.agree_response "fieldagent2" (VStr "status_update") noon]
  /\ Some (to (CoordinatorAgent.agree_response "fieldagent2" (VStr "status_update") noon))
     = sender m.
Proof.
  intros rt s m.
  assert (Hperf : performative_of m = Performative.REQUEST) by reflexivity.
  assert (Hbody : parse_body (body m)
                  = VDict [("request", VStr "status_update"); ("timestamp", VStr "11:59:58")])
    by (vm_compute; reflexivity).
  destruct (coordinator_agrees_to_request (rt := rt) m _ s fresh_world Hperf Hbody
              (simple_runtime_accepts noon fresh_world 1)) as (Hrun & _ & _ & _ & Haddr).
  split.
  - rewrite Hrun. reflexivity.
  - apply (Haddr "fieldagent2"); reflexivity.
Defined.

(** C7 fails on the code for a requester outside 404.city.  A REQUEST
    for a status update from ops@example.org is answered by an AGREE
    addressed to ops@404.city, another address than the requester's: the
    coordinator rebuilds the recipient from the local part of the sender,
    where the field agent's reply goes to the sender's address as it
    is. *)
Lemma coordinator_agree_to_other_domain :
  let rt := simple_runtime noon true in
  let s := CoordinatorAgent.init "coordinator_messages.log" in
  let m := status_query "ops@example.org" "coordinator@404.city" in
  sender m = Some "ops@example.org"
  /\ map to (sent_messages (trace (world_of (CoordinatorAgent.run (Some m) s fresh_world))))
     = ["ops@404.city"]
  /\ "ops@404.city" <> "ops@example.org".
Proof.
  intros rt s m.
  split; [reflexivity | split; [vm_compute; reflexivity | discriminate]].
Qed.

(** ** The field agent's handlers *)

Section FieldHandlers.
Context {rt : Runtime}.

(** C6.  A REQUEST whose payload asks for [deploy_rescue_team] at location
    [L], received from the address [A], makes the field agent send exactly
    one message: an AGREE to [A] whose payload has location [L] and eta
    ["5 minutes"]. *)
Theorem field_agrees_to_deploy
    (m : Message) (d : list (string * value)) (L : value) (A : string)
    (s : FieldAgent.CommunicationBehaviour) (w : World) :
  performative_of m = Performative.REQUEST ->
  parse_body (body m) = VDict d ->
  lookup "request" d = Some (VStr "deploy_rescue_team") ->
  lookup "location" d = Some L ->
  sender m = Some A ->
  accepts_next w 1 ->
  let k := clock_reads w in
  let file := FieldAgent.log_file s in
  let line := "Agent: " ++ FieldAgent.agent_name s ++ nl in
  let party := split_head "@" A in
  let resp := FieldAgent.deploy_agree A L (clock (S k)) in
  FieldAgent.handle_incoming_message m s w
  = Ok tt s
      {| trace := trace w ++ [EvWrite file (entry_of line (clock k) "RECEIVED" m party);
                              EvSend resp;
                              EvWrite file (entry_of line (clock (S (S k))) "SENT" resp party)];
         clock_reads := S (S (S k));
         send_attempts := S (send_attempts w) |}
  /\ to resp = A
  /\ performative_of resp = Performative.AGREE
  /\ body resp = Some (json_dumps (VDict [("agreed_action", VStr "deploy_rescue_team");
                                          ("location", L);
                                          ("eta", VStr "5 minutes");
                                          ("timestamp", VStr (strftime_time (clock (S k))))])).
Proof.
  intros Hperf Hbody Hreq Hloc Hsender Hnet k file line party resp.
  subst k file line party resp.
  split; [|repeat split].
  destruct s as [file name c]. destruct w as [tr k a].
  unfold performative_of in Hperf. cbn [body] in Hbody.
  assert (Hreq' : dict_get d "request" VNone = VStr "deploy_rescue_team")
    by (unfold dict_get; rewrite Hreq; reflexivity).
  assert (Hloc' : dict_get d "location" VNone = L)
    by (unfold dict_get; rewrite Hloc; reflexivity).
  exec. rewrite Hperf, Hbody, Hsender.
  change (String.eqb Performative.REQUEST Performative.REQUEST) with true.
  exec. rewrite Hreq', Hloc'.
  change (value_is_str (VStr "deploy_rescue_team") "status_update") with false.
  change (value_is_str (VStr "deploy_rescue_team") "deploy_rescue_team") with true.
  exec. rewrite (accepts_next_0 _ 0 _ Hnet). exec.
  unfold entry_of, performative_of. rewrite ?Hperf.
  repeat rewrite <- app_assoc. reflexivity.
Qed.

(** C10.  A REQUEST whose payload asks for [status_update] makes the
    field agent send exactly one message, the status INFORM, and its
    recipient is coordinator@404.city whoever sent the request. *)
Theorem field_status_reply_goes_to_coordinator
    (m : Message) (d : list (string * value))
    (s : FieldAgent.CommunicationBehaviour) (w : World) :
  performative_of m = Performative.REQUEST ->
  parse_body (body m) = VDict d ->
  lookup "request" d = Some (VStr "status_update") ->
  accepts_next w 1 ->
  let k := clock_reads w in
  let file := FieldAgent.log_file s in
  let line := "Agent: " ++ FieldAgent.agent_name s ++ nl in
  let party := split_head "@" (str_of_opt (sender m)) in
  let inf := FieldAgent.status_inform s (clock (S k)) in
  FieldAgent.handle_incoming_message m s w
  = Ok tt s
      {| trace := trace w ++ [EvWrite file (entry_of line (clock k) "RECEIVED" m party);
                              EvSend inf;
                              EvWrite file (entry_of line (clock (S (S k))) "SENT" inf "coordinator")];
         clock_reads := S (S (S k));
         send_attempts := S (send_attempts w) |}
  /\ to inf = "coordinator@404.city"
  /\ performative_of inf = Performative.INFORM.
Proof.
  intros Hperf Hbody Hreq Hnet k file line party inf.
  subst k file line party inf.
  split; [|repeat split].
  destruct s as [file name c]. destruct w as [tr k a].
  unfold performative_of in Hperf. cbn [body] in Hbody.
  assert (Hreq' : dict_get d "request" VNone = VStr "status_update")
    by (unfold dict_get; rewrite Hreq; reflexivity).
  exec. rewrite Hperf, Hbody.
  change (String.eqb Performative.REQUEST Performative.REQUEST) with true.
  exec. rewrite Hreq'.
  change (value_is_str (VStr "status_update") "status_update") with true.
  exec. rewrite (accepts_next_0 _ 0 _ Hnet). exec.
  unfold entry_of, performative_of. rewrite ?Hperf.
  repeat rewrite <- app_assoc. reflexivity.
Qed.

End FieldHandlers.

(** deploy_order comes from the coordinator; the AGREE goes back there. *)
Lemma field_agrees_to_deploy_witness :
  let rt := simple_runtime noon true in
  let s := FieldAgent.init "field_agent_messages.log" "FieldAgent1" in
  let resp := FieldAgent.deploy_agree "coordinator@404.city" (VStr "Zone-7") noon in
  sent_messages (trace (world_of (FieldAgent.handle_incoming_message deploy_order s fresh_world)))
  = [resp]
  /\ to resp = "coordinator@404.city".
Proof.
  intros rt s resp.
  assert (Hperf : performative_of deploy_order = Performative.REQUEST) by reflexivity.
  assert (Hbody : parse_body (body deploy_order)
                  = VDict [("request", VStr "deploy_rescue_team"); ("location", VStr "Zone-7");
                           ("priority", VStr "high"); ("timestamp", VStr "11:59:58")])
    by (vm_compute; reflexivity).
  destruct (field_agrees_to_deploy (rt := rt) deploy_order _ (VStr "Zone-7") "coordinator@404.city"
              s fresh_world Hperf Hbody eq_refl eq_refl eq_refl
              (simple_runtime_accepts noon fresh_world 1)) as (Hrun & Hto & _).
  split; [rewrite Hrun; reflexivity | exact Hto].
Defined.

(** A status query from another agent is answered to the coordinator. *)
Lemma field_status_reply_goes_to_coordinator_witness :
  let rt := simple_runtime noon true in
  let s := FieldAgent.init "field_agent_messages.log" "FieldAgent1" in
  let m := status_query "fieldagent2@404.city" "fieldagent1@404.city" in
  map to (sent_messages (trace (world_of (FieldAgent.handle_incoming_message m s fresh_world))))
  = ["coordinator@404.city"].
Proof.
  intros rt s m.
  assert (Hperf : performative_of m = Performative.REQUEST) by reflexivity.
  assert (Hbody : parse_body (body m)
                  = VDict [("request", VStr "status_update"); ("timestamp", VStr "11:59:58")])
    by (vm_compute; reflexivity).
  destruct (field_status_reply_goes_to_coordinator (rt := rt) m _ s fresh_world Hperf Hbody eq_refl
              (simple_runtime_accepts noon fresh_world 1)) as (Hrun & _).
  rewrite Hrun. reflexivity.
Defined.

(** ** The field agent's proactive triggers *)

Ltac branch :=
  match goal with
  | |- context [match ?x with _ => _ end] =>
      lazymatch x with
      | context [match _ with _ => _ end] => fail
      | _ => destruct x eqn:?
      end
  end; exec.

Ltac same_world :=
  repeat rewrite <- app_assoc; cbn [app];
  repeat first [reflexivity | lia | f_equal].

Section FieldTriggers.
Context {rt : Runtime}.

Lemma field_handle_keeps_self (m : Message) (s : FieldAgent.CommunicationBehaviour)
    (w : World) :
  match FieldAgent.handle_incoming_message m s w with
  | Ok _ s' _ => s' = s
  | Raised _ s' _ => s' = s
  end.
Proof.
  destruct s as [file name c]. destruct w as [tr k a].
  exec. repeat branch; reflexivity.
Qed.

(** An iteration in which nothing arrives only advances the counter
    before it comes to its triggers. *)
Lemma field_receive_nothing (s : FieldAgent.CommunicationBehaviour) (w : World) :
  FieldAgent.receive_and_handle None s w
  = Ok tt {| FieldAgent.log_file := FieldAgent.log_file s;
             FieldAgent.agent_name := FieldAgent.agent_name s;
             FieldAgent.cycle_count := FieldAgent.cycle_count s + 1 |} w.
Proof. reflexivity. Qed.

(** C5, as the code has it.  In every iteration of the field agent in
    which handling the inbound message, if there is one, comes to its
    end, what follows is: a status INFORM exactly when the advanced
    cycle count is a multiple of 4, then a disaster INFORM exactly when
    it is a multiple of 5, each followed by its own log entry, then the
    sleep.  The disaster type is the entry of the four-element list at
    index cycle count mod 4 and the location is Zone-(cycle count mod
    10).  These are the triggers only: a status INFORM is also what
    answers a status_update REQUEST, at any cycle count. *)
Theorem field_proactive_triggers
    (inbound : option Message) (s s1 : FieldAgent.CommunicationBehaviour) (w w1 : World) :
  FieldAgent.receive_and_handle inbound s w = Ok tt s1 w1 ->
  accepts_next w1 2 ->
  let c := FieldAgent.cycle_count s + 1 in
  let file := FieldAgent.log_file s in
  let line := "Agent: " ++ FieldAgent.agent_name s ++ nl in
  let fires4 := (c mod 4 =? 0)%nat in
  let fires5 := (c mod 5 =? 0)%nat in
  let k := clock_reads w1 in
  let status := FieldAgent.status_inform s1 (clock k) in
  let k' := if fires4 then S (S k) else k in
  let disaster := FieldAgent.disaster_inform s1 (clock k') in
  FieldAgent.cycle_count s1 = c
  /\ FieldAgent.run inbound s w
     = Ok tt s1
         {| trace := trace w1
                     ++ (if fires4
                         then [EvSend status;
                               EvWrite file (entry_of line (clock (S k)) "SENT" status "coordinator")]
                         else [])
                     ++ (if fires5
                         then [EvSend disaster;
                               EvWrite file (entry_of line (clock (S k')) "SENT" disaster "coordinator")]
                         else [])
                     ++ [EvSleep 2];
            clock_reads := if fires5 then S (S k') else k';
            send_attempts := send_attempts w1 + (if fires4 then 1 else 0)
                                              + (if fires5 then 1 else 0) |}
  /\ body disaster
     = Some (json_dumps (VDict [("status", VStr "alert");
                                ("disaster_detected", VStr (nth (c mod 4) FieldAgent.disasters EmptyString));
                                ("severity", VStr "high");
                                ("location", VStr ("Zone-" ++ str_of_nat (c mod 10)));
                                ("timestamp", VStr (strftime_time (clock k')))]))
  /\ to status = "coordinator@404.city" /\ to disaster = "coordinator@404.city".
Proof.
  intros Hhandled Hnet c file line fires4 fires5 k status k' disaster.
  assert (Hs1 : s1 = {| FieldAgent.log_file := FieldAgent.log_file s;
                        FieldAgent.agent_name := FieldAgent.agent_name s;
                        FieldAgent.cycle_count := FieldAgent.cycle_count s + 1 |}).
  { unfold FieldAgent.receive_and_handle in Hhandled.
    destruct inbound as [m|]; cbv [bind get_self set_self receive emit ret] in Hhandled.
    - match type of Hhandled with
      | FieldAgent.handle_incoming_message m ?s' ?w' = _ =>
          pose proof (field_handle_keeps_self m s' w') as Hkeep
      end.
      rewrite Hhandled in Hkeep. exact Hkeep.
    - injection Hhandled as Hs _. congruence. }
  assert (Hrun : FieldAgent.run inbound s w
                 = ((self <- get_self ;;
                     (if (FieldAgent.cycle_count self mod 4 =? 0)%nat
                      then FieldAgent.send_status_inform else ret tt) ;;
                     self <- get_self ;;
                     (if (FieldAgent.cycle_count self mod 5 =? 0)%nat
                      then FieldAgent.report_disaster else ret tt) ;;
                     sleep 2) s1 w1)).
  { unfold FieldAgent.receive_and_handle in Hhandled. unfold FieldAgent.run.
    cbv [bind get_self set_self] in Hhandled |- *.
    destruct (receive 2 inbound _ w) as [msg s' w'|e s' w']; [|discriminate].
    destruct msg as [m|].
    - destruct (FieldAgent.handle_incoming_message m s' w'); [|discriminate].
      injection Hhandled as _ Hs Hw. subst. reflexivity.
    - cbv [ret] in Hhandled |- *. injection Hhandled as Hs Hw. subst. reflexivity. }
  rewrite Hrun. subst status disaster k' k fires4 fires5 c file line. rewrite Hs1.
  clear Hrun Hhandled Hs1.
  split; [reflexivity|]. split; [|repeat split; reflexivity]. destruct s as [file name c]. destruct w1 as [tr k a].
  exec.
  destruct ((c + 1) mod 4 =? 0)%nat; exec.
  - rewrite (accepts_next_0 _ 1 _ Hnet). exec.
    destruct ((c + 1) mod 5 =? 0)%nat; exec.
    + rewrite (accepts_next_1 _ 0 _ Hnet). exec. same_world.
    + same_world.
  - destruct ((c + 1) mod 5 =? 0)%nat; exec.
    + rewrite (accepts_next_0 _ 1 _ Hnet). exec. same_world.
    + same_world.
Qed.

End FieldTriggers.

(** At cycle count 20 both triggers fire: Fire in Zone-0 after the status. *)
Lemma field_proactive_triggers_witness :
  let rt := simple_runtime noon true in
  let s := {| FieldAgent.log_file := "field_agent_messages.log";
              FieldAgent.agent_name := "FieldAgent1";
              FieldAgent.cycle_count := 19 |} in
  let s1 := {| FieldAgent.log_file := "field_agent_messages.log";
               FieldAgent.agent_name := "FieldAgent1";
               FieldAgent.cycle_count := 20 |} in
  sent_messages (trace (world_of (FieldAgent.run None s fresh_world)))
  = [FieldAgent.status_inform s1 noon; FieldAgent.disaster_inform s1 noon]
  /\ body (FieldAgent.disaster_inform s1 noon)
     = Some (json_dumps (VDict [("status", VStr "alert");
                                ("disaster_detected", VStr "Fire");
                                ("severity", VStr "high");
                                ("location", VStr "Zone-0");
                                ("timestamp", VStr "12:00:00")])).
Proof.
  intros rt s s1.
  destruct (field_proactive_triggers (rt := rt) None s s1 fresh_world fresh_world
              (field_receive_nothing s fresh_world)
              (simple_runtime_accepts noon fresh_world 2)) as (_ & Hrun & _).
  split; [rewrite Hrun; reflexivity | reflexivity].
Defined.

(** C5 as stated fails: in its first iteration, which is no multiple of 4,
    a fresh field agent that receives a status_update REQUEST sends a status
    INFORM. *)
Lemma field_status_inform_off_schedule :
  let rt := simple_runtime noon true in
  let s := FieldAgent.init "field_agent_messages.log" "FieldAgent1" in
  let s1 := {| FieldAgent.log_file := "field_agent_messages.log";
               FieldAgent.agent_name := "FieldAgent1";
               FieldAgent.cycle_count := 1 |} in
  let m := status_query "coordinator@404.city" "fieldagent1@404.city" in
  1 mod 4 <> 0
  /\ FieldAgent.cycle_count s + 1 = 1
  /\ sent_messages (trace (world_of (FieldAgent.run (Some m) s fresh_world)))
     = [FieldAgent.status_inform s1 noon].
Proof.
  intros rt s s1 m.
  split; [discriminate | split; [reflexivity | vm_compute; reflexivity]].
Qed.

(** ** One iteration: what is logged and what escapes *)

Lemma since_extended (tr evs : list event) (k k' a a' : nat) :
  since {| trace := tr; clock_reads := k; send_attempts := a |}
        {| trace := tr ++ evs; clock_reads := k'; send_attempts := a' |}
  = evs.
Proof.
  unfold since. cbn [trace]. rewrite skipn_app, skipn_all, Nat.sub_diag. reflexivity.
Qed.

Lemma since_same (w : World) : since w w = [].
Proof. unfold since. apply skipn_all. Qed.

Ltac count_events :=
  cbv [count filter length is_write is_recv is_send is_failed is_sleep
       ends_with_sleep rev app Nat.add].

Ltac shape_leaf :=
  unfold uncaught; cbv [world_of]; try rewrite since_same;
  repeat rewrite <- app_assoc; cbn [app]; try rewrite since_extended;
  cbn [trace]; count_events;
  repeat match goal with
         | |- _ /\ _ => split
         | |- _ <-> _ => split; intro
         | |- audited _ _ _ => constructor
         | |- _ = _ => first [reflexivity | discriminate | rewrite app_nil_r; reflexivity]
         end.

Ltac ended_leaf :=
  cbv [ended_as coordinator_handler_fails field_handler_fails received_and_logged
       performative_of clock_reads];
  repeat match goal with
         | H : _ = _ |- _ => rewrite H
         end;
  try rewrite since_same;
  repeat rewrite <- app_assoc; cbn [app]; try rewrite since_extended;
  count_events;
  cbv [ends_with_failed_send rev app orb andb negb is_dict];
  repeat match goal with
         | |- _ /\ _ => split
         | |- _ = _ => reflexivity
         end.

Section Shape.
Context {rt : Runtime}.

Lemma coordinator_run_shape (inbound : option Message)
    (s : CoordinatorAgent.CommunicationBehaviour) (w : World) :
  uncaught w (CoordinatorAgent.run inbound s w)
  /\ audited EmptyString (CoordinatorAgent.log_file s)
       (since w (world_of (CoordinatorAgent.run inbound s w))).
Proof.
  destruct s as [file n missions]. destruct w as [tr k a].
  destruct inbound as [m|]; exec; repeat branch; shape_leaf.
Qed.

Lemma field_run_shape (inbound : option Message)
    (s : FieldAgent.CommunicationBehaviour) (w : World) :
  uncaught w (FieldAgent.run inbound s w)
  /\ audited ("Agent: " ++ FieldAgent.agent_name s ++ nl) (FieldAgent.log_file s)
       (since w (world_of (FieldAgent.run inbound s w))).
Proof.
  destruct s as [file name c]. destruct w as [tr k a].
  destruct inbound as [m|]; exec; repeat branch; shape_leaf.
Qed.

Lemma coordinator_run_ended (inbound : option Message)
    (s : CoordinatorAgent.CommunicationBehaviour) (w : World) :
  ended_as (coordinator_handler_fails inbound)
    (received_and_logged EmptyString (CoordinatorAgent.log_file s) w inbound)
    w (CoordinatorAgent.run inbound s w).
Proof.
  destruct s as [file n missions]. destruct w as [tr k a].
  destruct inbound as [m|]; exec; repeat branch; ended_leaf.
Qed.

Lemma field_run_ended (inbound : option Message)
    (s : FieldAgent.CommunicationBehaviour) (w : World) :
  ended_as (field_handler_fails inbound)
    (received_and_logged ("Agent: " ++ FieldAgent.agent_name s ++ nl)
       (FieldAgent.log_file s) w inbound)
    w (FieldAgent.run inbound s w).
Proof.
  destruct s as [file name c]. destruct w as [tr k a].
  destruct inbound as [m|]; exec; repeat branch; ended_leaf.
Qed.

Lemma handler_failure_raises {St : Type} (fails : bool) (received : list event)
    (w : World) (o : Outcome St unit) :
  ended_as fails received w o ->
  fails = true ->
  exists s' w', o = Raised AttributeError s' w' /\ since w w' = received.
Proof.
  intros H Hf. destruct o as [u s' w'|[|] s' w']; cbn [ended_as] in H.
  - destruct H as (H & _). congruence.
  - exists s', w'. split; [reflexivity | apply H].
  - destruct H as (H & _). congruence.
Qed.

End Shape.

Lemma string_app_inv_head (p a b : string) :
  (p ++ a)%string = (p ++ b)%string -> a = b.
Proof.
  induction p as [|c p IH]; simpl; intros H; [exact H|].
  injection H as H. exact (IH H).
Qed.

Section Iterations.
Context {rt : Runtime}.

(** The text of an entry before and after its direction. *)
Lemma entry_of_shape (line : string) (t : datetime) (direction : string)
    (m : Message) (party : string) :
  entry_of line t direction m party
  = ((nl ++ str_mul "=" 70 ++ nl ++ "[" ++ strftime_full t ++ "] ")
     ++ direction
     ++ (" - " ++ str_upper (performative_of m) ++ nl
         ++ str_mul "-" 70 ++ nl
         ++ line
         ++ "From/To: " ++ party ++ nl
         ++ "Performative: " ++ performative_of m ++ nl
         ++ "Content: " ++ str_of_opt (body m) ++ nl
         ++ str_mul "=" 70 ++ nl))%string.
Proof.
  unfold entry_of, log_entry. repeat rewrite string_app_assoc. reflexivity.
Qed.

(** C8.  In every iteration of either behaviour, whatever arrives and
    however the iteration ends, the trace of the iteration has after each
    message received its one RECEIVED entry and after each message sent
    its one SENT entry, with nothing in between and no other write: the
    log holds as many entries as messages were received and sent, all
    written within the iteration.  An entry is the same text for both
    directions but for the word SENT or RECEIVED, which stands at the
    same place after the timestamp; that word tells the two entries of a
    message apart. *)
Theorem every_message_logged_once (inbound : option Message)
    (sc : CoordinatorAgent.CommunicationBehaviour)
    (sf : FieldAgent.CommunicationBehaviour) (w : World) :
  (let w' := world_of (CoordinatorAgent.run inbound sc w) in
   trace w' = (trace w ++ since w w')%list
   /\ audited EmptyString (CoordinatorAgent.log_file sc) (since w w')
   /\ count is_write (since w w') = count is_recv (since w w') + count is_send (since w w'))
  /\ (let w' := world_of (FieldAgent.run inbound sf w) in
      trace w' = (trace w ++ since w w')%list
      /\ audited ("Agent: " ++ FieldAgent.agent_name sf ++ nl) (FieldAgent.log_file sf)
           (since w w')
      /\ count is_write (since w w') = count is_recv (since w w') + count is_send (since w w'))
  /\ (forall line t direction m party,
        entry_of line t direction m party
        = ((nl ++ str_mul "=" 70 ++ nl ++ "[" ++ strftime_full t ++ "] ")
           ++ direction
           ++ (" - " ++ str_upper (performative_of m) ++ nl
               ++ str_mul "-" 70 ++ nl
               ++ line
               ++ "From/To: " ++ party ++ nl
               ++ "Performative: " ++ performative_of m ++ nl
               ++ "Content: " ++ str_of_opt (body m) ++ nl
               ++ str_mul "=" 70 ++ nl))%string)
  /\ (forall line t m party,
        entry_of line t "SENT" m party <> entry_of line t "RECEIVED" m party).
Proof.
  split; [|split; [|split]].
  - destruct (coordinator_run_shape inbound sc w) as [(Htrace & Hcount & _) Haud].
    cbv zeta. auto.
  - destruct (field_run_shape inbound sf w) as [(Htrace & Hcount & _) Haud].
    cbv zeta. auto.
  - apply entry_of_shape.
  - intros line t m party E.
    rewrite !entry_of_shape in E.
    apply string_app_inv_head in E.
    discriminate E.
Qed.

(** C4, as the code has it.  Neither loop catches anything.  An
    iteration of either behaviour returns, after its sleep, exactly when
    the handler of its message did not fail and no send failed.  When the
    handler fails (it reads a payload that is no mapping), its
    [AttributeError] leaves [run] at once: receiving the message and
    writing its RECEIVED entry is all that iteration has done.  When a
    send fails, its [DeliveryError] leaves [run] at once: the failed send
    is the last thing that iteration has done.  Either way nothing is
    written to the log about the failure and the sleep is not reached. *)
Theorem failures_leave_run (inbound : option Message)
    (sc : CoordinatorAgent.CommunicationBehaviour)
    (sf : FieldAgent.CommunicationBehaviour) (w : World) :
  let out_c := CoordinatorAgent.run inbound sc w in
  let out_f := FieldAgent.run inbound sf w in
  let done_c := received_and_logged EmptyString (CoordinatorAgent.log_file sc) w inbound in
  let done_f := received_and_logged ("Agent: " ++ FieldAgent.agent_name sf ++ nl)
              (FieldAgent.log_file sf) w inbound in
  uncaught w out_c
  /\ uncaught w out_f
  /\ ended_as (coordinator_handler_fails inbound) done_c w out_c
  /\ ended_as (field_handler_fails inbound) done_f w out_f
  /\ (coordinator_handler_fails inbound = true ->
      exists s' w', out_c = Raised AttributeError s' w' /\ since w w' = done_c)
  /\ (field_handler_fails inbound = true ->
      exists s' w', out_f = Raised AttributeError s' w' /\ since w w' = done_f).
Proof.
  cbv zeta.
  pose proof (coordinator_run_ended inbound sc w) as Hc.
  pose proof (field_run_ended inbound sf w) as Hf.
  split; [apply coordinator_run_shape|].
  split; [apply field_run_shape|].
  split; [exact Hc|]. split; [exact Hf|].
  split; intros Hfails.
  - exact (handler_failure_raises _ _ _ _ Hc Hfails).
  - exact (handler_failure_raises _ _ _ _ Hf Hfails).
Qed.

(** Decoding never raises into the handler; when the decoder fails the
    payload is the mapping of ["text"] to the raw body. *)
Lemma parse_body_fallback (P : string) :
  json_loads P = None -> parse_body (Some P) = VDict [("text", VStr P)].
Proof. intros H. unfold parse_body. rewrite H. reflexivity. Qed.

(** When the decoder succeeds the payload is what it decoded, mapping or
    not. *)
Lemma parse_body_decoded (P : string) (v : value) :
  json_loads P = Some v -> parse_body (Some P) = v.
Proof. intros H. unfold parse_body. rewrite H. reflexivity. Qed.

End Iterations.

(** ** Replaying a schedule *)

Lemma bind_same {St A B : Type} (m1 m2 : M St A) (k1 k2 : A -> M St B) :
  (forall s w, m1 s w = m2 s w) ->
  (forall a s w, k1 a s w = k2 a s w) ->
  forall s w, bind m1 k1 s w = bind m2 k2 s w.
Proof.
  intros Hm Hk s w. unfold bind. rewrite Hm.
  destruct (m2 s w); [apply Hk | reflexivity].
Qed.

Lemma for_each_same {St A : Type} (xs : list A) (body1 body2 : A -> M St unit) :
  (forall x s w, body1 x s w = body2 x s w) ->
  forall s w, for_each xs body1 s w = for_each xs body2 s w.
Proof.
  intros Hb. induction xs as [|x xs IH]; intros s w; cbn [for_each]; [reflexivity|].
  apply bind_same; [apply Hb | intros _; exact IH].
Qed.

Section SameAnswers.
Variables rt1 rt2 : Runtime.
Hypothesis Hsame : same_answers rt1 rt2.

Lemma now_same {St : Type} (s : St) (w : World) :
  now (rt := rt1) s w = now (rt := rt2) s w.
Proof.
  destruct Hsame as (_ & _ & _ & Hclock & _). unfold now. rewrite Hclock. reflexivity.
Qed.

Lemma send_same {St : Type} (msg : Message) (s : St) (w : World) :
  send (rt := rt1) msg s w = send (rt := rt2) msg s w.
Proof.
  destruct Hsame as (_ & _ & _ & _ & Hnet). unfold send. rewrite Hnet. reflexivity.
Qed.

Lemma parse_body_same (b : option string) :
  parse_body (rt := rt1) b = parse_body (rt := rt2) b.
Proof.
  destruct Hsame as (Hloads & _). unfold parse_body.
  destruct b as [raw|]; [rewrite Hloads|]; reflexivity.
Qed.

Lemma log_entry_same (line ts direction performative party : string)
    (content : option string) :
  log_entry (rt := rt1) line ts direction performative party content
  = log_entry (rt := rt2) line ts direction performative party content.
Proof.
  destruct Hsame as (_ & _ & Hupper & _). unfold log_entry. rewrite Hupper. reflexivity.
Qed.

Lemma coordinator_log_same direction msg party s w :
  CoordinatorAgent.log_message (rt := rt1) direction msg party s w
  = CoordinatorAgent.log_message (rt := rt2) direction msg party s w.
Proof.
  unfold CoordinatorAgent.log_message.
  apply bind_same; [apply now_same | intros t s' w'].
  rewrite log_entry_same. reflexivity.
Qed.

Lemma field_log_same direction msg party s w :
  FieldAgent.log_message (rt := rt1) direction msg party s w
  = FieldAgent.log_message (rt := rt2) direction msg party s w.
Proof.
  unfold FieldAgent.log_message.
  apply bind_same; [apply now_same | intros t s' w'].
  apply bind_same; [reflexivity | intros self s'' w''].
  rewrite log_entry_same. reflexivity.
Qed.

Lemma coordinator_send_and_log_same (msg1 msg2 : Message) (party : string) s w :
  msg1 = msg2 ->
  (send (rt := rt1) msg1 ;; CoordinatorAgent.log_message (rt := rt1) "SENT" msg1 party) s w
  = (send (rt := rt2) msg2 ;; CoordinatorAgent.log_message (rt := rt2) "SENT" msg2 party) s w.
Proof.
  intros ->. apply bind_same; [apply send_same | intros; apply coordinator_log_same].
Qed.

Lemma field_send_and_log_same (msg1 msg2 : Message) (party : string) s w :
  msg1 = msg2 ->
  (send (rt := rt1) msg1 ;; FieldAgent.log_message (rt := rt1) "SENT" msg1 party) s w
  = (send (rt := rt2) msg2 ;; FieldAgent.log_message (rt := rt2) "SENT" msg2 party) s w.
Proof.
  intros ->. apply bind_same; [apply send_same | intros; apply field_log_same].
Qed.

Lemma json_dumps_same (v : value) : json_dumps (Runtime := rt1) v = json_dumps (Runtime := rt2) v.
Proof. destruct Hsame as (_ & Hdumps & _). apply Hdumps. Qed.

Lemma coordinator_handle_same msg s w :
  CoordinatorAgent.handle_incoming_message (rt := rt1) msg s w
  = CoordinatorAgent.handle_incoming_message (rt := rt2) msg s w.
Proof.
  unfold CoordinatorAgent.handle_incoming_message.
  apply bind_same; [intros; apply coordinator_log_same | intros _ s' w'].
  rewrite parse_body_same.
  unfold CoordinatorAgent.handle_inform, CoordinatorAgent.handle_request,
    CoordinatorAgent.handle_agree, CoordinatorAgent.dispatch_rescue_team.
  repeat match goal with
         | |- (if ?b then _ else _) _ _ = _ => destruct b
         | |- (match ?x with _ => _ end) _ _ = _ => destruct x
         end;
    try reflexivity;
    (apply bind_same; [apply now_same | intros t s'' w'']);
    apply coordinator_send_and_log_same;
    unfold CoordinatorAgent.rescue_request, CoordinatorAgent.agree_response;
    rewrite json_dumps_same; reflexivity.
Qed.

Lemma coordinator_run_same inbound s w :
  CoordinatorAgent.run (rt := rt1) inbound s w = CoordinatorAgent.run (rt := rt2) inbound s w.
Proof.
  unfold CoordinatorAgent.run.
  apply bind_same; [reflexivity | intros msg s' w'].
  apply bind_same; [|reflexivity]. intros s'' w''.
  destruct msg as [m|].
  - apply bind_same; [reflexivity | intros self s3 w3].
    apply bind_same; [reflexivity | intros _ s4 w4].
    apply coordinator_handle_same.
  - apply bind_same; [reflexivity | intros self s3 w3].
    destruct (_ =? 0)%nat; [|reflexivity].
    unfold CoordinatorAgent.send_status_request.
    apply for_each_same. intros name s4 w4.
    apply bind_same; [apply now_same | intros t s5 w5].
    apply coordinator_send_and_log_same.
    unfold CoordinatorAgent.status_request. rewrite json_dumps_same. reflexivity.
Qed.

Lemma field_status_same s w :
  FieldAgent.send_status_inform (rt := rt1) s w = FieldAgent.send_status_inform (rt := rt2) s w.
Proof.
  unfold FieldAgent.send_status_inform.
  apply bind_same; [reflexivity | intros self s' w'].
  apply bind_same; [apply now_same | intros t s'' w''].
  apply field_send_and_log_same.
  unfold FieldAgent.status_inform. rewrite json_dumps_same. reflexivity.
Qed.

Lemma field_disaster_same s w :
  FieldAgent.report_disaster (rt := rt1) s w = FieldAgent.report_disaster (rt := rt2) s w.
Proof.
  unfold FieldAgent.report_disaster.
  apply bind_same; [reflexivity | intros self s' w'].
  apply bind_same; [apply now_same | intros t s'' w''].
  apply field_send_and_log_same.
  unfold FieldAgent.disaster_inform. rewrite json_dumps_same. reflexivity.
Qed.

Lemma field_handle_same msg s w :
  FieldAgent.handle_incoming_message (rt := rt1) msg s w
  = FieldAgent.handle_incoming_message (rt := rt2) msg s w.
Proof.
  unfold FieldAgent.handle_incoming_message.
  apply bind_same; [intros; apply field_log_same | intros _ s' w'].
  rewrite parse_body_same.
  repeat match goal with
         | |- (if ?b then _ else _) _ _ = _ => destruct b
         | |- (match ?x with _ => _ end) _ _ = _ => destruct x
         end;
    try reflexivity; try apply field_status_same.
  apply bind_same; [apply now_same | intros t s'' w''].
  apply field_send_and_log_same.
  unfold FieldAgent.deploy_agree. rewrite json_dumps_same. reflexivity.
Qed.

Lemma field_run_same inbound s w :
  FieldAgent.run (rt := rt1) inbound s w = FieldAgent.run (rt := rt2) inbound s w.
Proof.
  unfold FieldAgent.run.
  apply bind_same; [reflexivity | intros self s1 w1].
  apply bind_same; [reflexivity | intros _ s2 w2].
  apply bind_same; [reflexivity | intros msg s3 w3].
  apply bind_same; [destruct msg; [apply field_handle_same | reflexivity] | intros _ s4 w4].
  apply bind_same; [reflexivity | intros self' s5 w5].
  apply bind_same; [destruct (_ =? 0)%nat; [apply field_status_same | reflexivity]
                   | intros _ s6 w6].
  apply bind_same; [reflexivity | intros self'' s7 w7].
  apply bind_same; [destruct (_ =? 0)%nat; [apply field_disaster_same | reflexivity]
                   | intros _ s8 w8].
  reflexivity.
Qed.

Lemma run_loop_same {St : Type} (run1 run2 : option Message -> M St unit)
    (resume : bool) (schedule : list (option Message)) :
  (forall inbound s w, run1 inbound s w = run2 inbound s w) ->
  forall s w, run_loop run1 resume schedule s w = run_loop run2 resume schedule s w.
Proof.
  intros Hrun. induction schedule as [|inbound rest IH]; intros s w; cbn [run_loop].
  - reflexivity.
  - rewrite Hrun. destruct (run2 inbound s w); [apply IH|].
    destruct resume; [apply IH | reflexivity].
Qed.

(** C9, as the code has it.  Replay a schedule of inbound messages against
    a freshly constructed behaviour in two runs whose environments give
    the same answers (the same readings of the clock, and also the same
    answers of the transport and of the library) and whose log file holds
    the same bytes at the start: it holds the same bytes at the end of
    both runs, whatever else differs between the two worlds and whatever
    the framework does after an error. *)
Theorem replay_writes_same_log (resume : bool) (schedule : list (option Message))
    (file name f : string) (w1 w2 : World) :
  clock_reads w1 = clock_reads w2 ->
  send_attempts w1 = send_attempts w2 ->
  file_content f (trace w1) = file_content f (trace w2) ->
  file_content f (trace (snd (run_loop (CoordinatorAgent.run (rt := rt1)) resume schedule
                                (CoordinatorAgent.init file) w1)))
  = file_content f (trace (snd (run_loop (CoordinatorAgent.run (rt := rt2)) resume schedule
                                  (CoordinatorAgent.init file) w2)))
  /\ file_content f (trace (snd (run_loop (FieldAgent.run (rt := rt1)) resume schedule
                                   (FieldAgent.init file name) w1)))
     = file_content f (trace (snd (run_loop (FieldAgent.run (rt := rt2)) resume schedule
                                     (FieldAgent.init file name) w2))).
Proof.
  intros Hclock Hnet Hlog.
  rewrite (run_loop_same _ _ resume schedule coordinator_run_same).
  rewrite (run_loop_same _ _ resume schedule field_run_same).
  destruct w1 as [tr1 k1 a1]. destruct w2 as [tr2 k2 a2].
  cbn [clock_reads send_attempts trace] in Hclock, Hnet, Hlog. subst k2 a2.
  pose (w0 := {| trace := []; clock_reads := k1; send_attempts := a1 |}).
  assert (Hshift : forall tr, {| trace := tr; clock_reads := k1; send_attempts := a1 |}
                              = shift tr w0).
  { intros tr. unfold shift, w0. cbn [trace clock_reads send_attempts].
    rewrite app_nil_r. reflexivity. }
  rewrite (Hshift tr1), (Hshift tr2).
  split.
  - rewrite !(run_loop_shift CoordinatorAgent.run resume schedule framed_coordinator_run).
    cbn [snd shift trace]. rewrite !file_content_app, Hlog. reflexivity.
  - rewrite !(run_loop_shift FieldAgent.run resume schedule framed_field_run).
    cbn [snd shift trace]. rewrite !file_content_app, Hlog. reflexivity.
Qed.

End SameAnswers.

(** A runtime that answers as [simple_runtime noon true] does, otherwise
    put together: its clock reads the parts of noon, its transport says
    yes by a test that is always true. *)
Lemma replay_writes_same_log_witness :
  let rt1 := simple_runtime noon true in
  let rt2 := {| json_loads := Json.loads;
                json_dumps := Json.dumps;
                str_upper := Json.upper;
                clock := fun k => {| ymd := "2025-03-01"; hms := "12:00:00" |};
                transport := fun k m => (k <=? k)%nat |} in
  let schedule := [None; Some fire_report; None] in
  let w2 := {| trace := [EvSleep 2]; clock_reads := 0; send_attempts := 0 |} in
  let f := "coordinator_messages.log" in
  file_content f (trace (snd (run_loop (CoordinatorAgent.run (rt := rt1)) false schedule
                                (CoordinatorAgent.init f) fresh_world)))
  = file_content f (trace (snd (run_loop (CoordinatorAgent.run (rt := rt2)) false schedule
                                  (CoordinatorAgent.init f) w2))).
Proof.
  intros rt1 rt2 schedule w2 f.
  assert (Hsame : same_answers rt1 rt2).
  { repeat split; intros; try reflexivity. cbn [transport rt1 rt2 simple_runtime].
    symmetry. apply Nat.leb_refl. }
  apply (replay_writes_same_log rt1 rt2 Hsame false schedule f "FieldAgent1" f fresh_world w2);
    reflexivity.
Defined.

(** C9 as stated fails: the same schedule and the same clock do not fix
    the log.  With the transport up the first silent iteration of a fresh
    coordinator writes its SENT entries, with the transport down it writes
    nothing.  And the field agent's log is never emptied: a second replay
    into the file of the first leaves it twice as long. *)
Lemma replay_log_is_not_fixed_by_schedule_and_clock :
  let up := simple_runtime noon true in
  let down := simple_runtime noon false in
  let fc := "coordinator_messages.log" in
  let ff := "field_agent_messages.log" in
  let sc := CoordinatorAgent.init fc in
  let sf := FieldAgent.init ff "FieldAgent1" in
  let m := status_query "coordinator@404.city" "fieldagent1@404.city" in
  let first := snd (run_loop (FieldAgent.run (rt := up)) false [Some m] sf fresh_world) in
  let again := snd (run_loop (FieldAgent.run (rt := up)) false [Some m] sf
                      {| trace := trace first; clock_reads := 0; send_attempts := 0 |}) in
  file_content fc (trace (snd (run_loop (CoordinatorAgent.run (rt := up)) false [None]
                                 sc fresh_world)))
  <> file_content fc (trace (snd (run_loop (CoordinatorAgent.run (rt := down)) false [None]
                                    sc fresh_world)))
  /\ file_content ff (trace first) <> file_content ff (trace again)
  /\ String.length (file_content ff (trace again))
     = 2 * String.length (file_content ff (trace first)).
Proof.
  intros up down fc ff sc sf m first again.
  split; [|split].
  - intros E. apply (f_equal String.length) in E. vm_compute in E. discriminate E.
  - intros E. apply (f_equal String.length) in E. vm_compute in E. discriminate E.
  - vm_compute. reflexivity.
Qed.

(** C4 as stated fails.  With the transport down, the first iteration of a
    fresh coordinator ends in the [DeliveryError] of its first send: the
    error is not caught, nothing is logged, the iteration does not sleep.
    And a REQUEST whose body is the JSON text of an empty array ends the
    field agent's iteration in the handler's [AttributeError], after the
    RECEIVED entry and before any sleep. *)
Lemma failure_is_not_caught :
  let down := simple_runtime noon false in
  let up := simple_runtime noon true in
  let sc := CoordinatorAgent.init "coordinator_messages.log" in
  let sf := FieldAgent.init "field_agent_messages.log" "FieldAgent1" in
  let m := array_request "coordinator@404.city" "fieldagent1@404.city" in
  CoordinatorAgent.run (rt := down) None sc fresh_world
  = Raised DeliveryError sc
      {| trace := [EvSendFailed (CoordinatorAgent.status_request (rt := down) "fieldagent1" noon)];
         clock_reads := 1;
         send_attempts := 1 |}
  /\ FieldAgent.run (rt := up) (Some m) sf fresh_world
     = Raised AttributeError
         {| FieldAgent.log_file := "field_agent_messages.log";
            FieldAgent.agent_name := "FieldAgent1";
            FieldAgent.cycle_count := 1 |}
         {| trace := [EvRecv m;
                      EvWrite "field_agent_messages.log"
                        (entry_of (rt := up) ("Agent: FieldAgent1" ++ nl) noon "RECEIVED" m
                           "coordinator")];
            clock_reads := 1;
            send_attempts := 0 |}.
Proof.
  intros down up sc sf m. split; vm_compute; reflexivity.
Qed.

(** A REQUEST whose body is an empty array: the field agent's handler
    fails and its error leaves [run]. *)
Lemma failures_leave_run_witness :
  let rt := simple_runtime noon true in
  let sc := CoordinatorAgent.init "coordinator_messages.log" in
  let sf := FieldAgent.init "field_agent_messages.log" "FieldAgent1" in
  let m := array_request "coordinator@404.city" "fieldagent1@404.city" in
  (exists s' w', FieldAgent.run (Some m) sf fresh_world = Raised AttributeError s' w'
                 /\ count is_sleep (since fresh_world w') = 0)
  /\ (exists s' w', CoordinatorAgent.run (Some m) sc fresh_world = Raised AttributeError s' w'
                    /\ count is_sleep (since fresh_world w') = 0).
Proof.
  intros rt sc sf m.
  destruct (failures_leave_run (rt := rt) (Some m) sc sf fresh_world)
    as (_ & _ & _ & _ & Hc & Hf).
  destruct (Hc eq_refl) as (s1 & w1 & Hrun1 & Hdone1).
  destruct (Hf eq_refl) as (s2 & w2 & Hrun2 & Hdone2).
  split.
  - exists s2, w2. split; [exact Hrun2 | rewrite Hdone2; reflexivity].
  - exists s1, w1. split; [exact Hrun1 | rewrite Hdone1; reflexivity].
Defined.

(** C3 fails on the code where the body is JSON that is not an object.
    The body [[]] decodes to an empty list, so no fallback is taken and the
    payload the handlers get is not a mapping; their [content.get] then
    raises [AttributeError], in the field agent and in the coordinator. *)
Lemma array_payload_is_not_a_mapping :
  let rt := simple_runtime noon true in
  let sc := CoordinatorAgent.init "coordinator_messages.log" in
  let sf := FieldAgent.init "field_agent_messages.log" "FieldAgent1" in
  let m := array_request "coordinator@404.city" "fieldagent1@404.city" in
  body m = Some "[]"
  /\ parse_body (body m) = VList []
  /\ FieldAgent.handle_incoming_message m sf fresh_world
     = Raised AttributeError sf
         {| trace := [EvWrite "field_agent_messages.log"
                        (entry_of ("Agent: FieldAgent1" ++ nl) noon "RECEIVED" m "coordinator")];
            clock_reads := 1;
            send_attempts := 0 |}
  /\ CoordinatorAgent.handle_incoming_message m sc fresh_world
     = Raised AttributeError sc
         {| trace := [EvWrite "coordinator_messages.log"
                        (entry_of EmptyString noon "RECEIVED" m "coordinator")];
            clock_reads := 1;
            send_attempts := 0 |}.
Proof.
  intros rt sc sf m.
  split; [reflexivity|]. split; [reflexivity|].
  split; vm_compute; reflexivity.
Qed.

(** ** Messages the coordinator only takes note of *)

Section CoordinatorQuiet.
Context {rt : Runtime}.

(** What an iteration leaves when the message it received is logged and
    nothing is sent. *)
Lemma coordinator_logs_only
    (m : Message) (s : CoordinatorAgent.CommunicationBehaviour) (w : World) :
  String.eqb (performative_of m) Performative.INFORM = false
  /\ String.eqb (performative_of m) Performative.REQUEST = false
  /\ String.eqb (performative_of m) Performative.AGREE = false
  \/ (exists d, parse_body (body m) = VDict d
                /\ (String.eqb (performative_of m) Performative.INFORM = true ->
                    dict_has "disaster_detected" d = false)
                /\ String.eqb (performative_of m) Performative.REQUEST = false) ->
  CoordinatorAgent.run (Some m) s w
  = Ok tt
      {| CoordinatorAgent.log_file := CoordinatorAgent.log_file s;
         CoordinatorAgent.message_count := CoordinatorAgent.message_count s + 1;
         CoordinatorAgent.active_missions := CoordinatorAgent.active_missions s |}
      {| trace := trace w ++ [EvRecv m;
                              EvWrite (CoordinatorAgent.log_file s)
                                (entry_of EmptyString (clock (clock_reads w)) "RECEIVED" m
                                   (split_head "@" (str_of_opt (sender m))));
                              EvSleep 2];
         clock_reads := S (clock_reads w);
         send_attempts := send_attempts w |}.
Proof.
  intros H. destruct s as [file n missions]. destruct w as [tr k a].
  unfold entry_of, performative_of in *. exec.
  destruct H as [(Hi & Hr & Ha) | (d & Hbody & Hkey & Hr)].
  - rewrite Hi, Hr, Ha. exec. same_world.
  - cbn [body] in Hbody. rewrite Hbody, Hr.
    destruct (String.eqb (dict_get (metadata m) "performative" "unknown") Performative.INFORM).
    + rewrite (Hkey eq_refl). exec. same_world.
    + destruct (String.eqb (dict_get (metadata m) "performative" "unknown") Performative.AGREE);
        exec; same_world.
Qed.

(** An AGREE whose payload is a mapping is observed only: the iteration
    counts it, logs it, sends nothing and sleeps. *)
Theorem coordinator_agree_is_observed_only
    (m : Message) (d : list (string * value))
    (s : CoordinatorAgent.CommunicationBehaviour) (w : World) :
  performative_of m = Performative.AGREE ->
  parse_body (body m) = VDict d ->
  CoordinatorAgent.run (Some m) s w
  = Ok tt
      {| CoordinatorAgent.log_file := CoordinatorAgent.log_file s;
         CoordinatorAgent.message_count := CoordinatorAgent.message_count s + 1;
         CoordinatorAgent.active_missions := CoordinatorAgent.active_missions s |}
      {| trace := trace w ++ [EvRecv m;
                              EvWrite (CoordinatorAgent.log_file s)
                                (entry_of EmptyString (clock (clock_reads w)) "RECEIVED" m
                                   (split_head "@" (str_of_opt (sender m))));
                              EvSleep 2];
         clock_reads := S (clock_reads w);
         send_attempts := send_attempts w |}.
Proof.
  intros Hperf Hbody. apply coordinator_logs_only. right. exists d.
  rewrite Hperf. split; [exact Hbody | split; [discriminate | reflexivity]].
Qed.

(** A message whose performative is none of inform, request and agree (a
    PROPOSE, a message without performative) is counted and logged and
    otherwise ignored, whatever its body is: the payload is never looked
    at, so even a body that is no JSON object raises nothing. *)
Theorem coordinator_ignores_other_performatives
    (m : Message) (s : CoordinatorAgent.CommunicationBehaviour) (w : World) :
  performative_of m <> Performative.INFORM ->
  performative_of m <> Performative.REQUEST ->
  performative_of m <> Performative.AGREE ->
  CoordinatorAgent.run (Some m) s w
  = Ok tt
      {| CoordinatorAgent.log_file := CoordinatorAgent.log_file s;
         CoordinatorAgent.message_count := CoordinatorAgent.message_count s + 1;
         CoordinatorAgent.active_missions := CoordinatorAgent.active_missions s |}
      {| trace := trace w ++ [EvRecv m;
                              EvWrite (CoordinatorAgent.log_file s)
                                (entry_of EmptyString (clock (clock_reads w)) "RECEIVED" m
                                   (split_head "@" (str_of_opt (sender m))));
                              EvSleep 2];
         clock_reads := S (clock_reads w);
         send_attempts := send_attempts w |}.
Proof.
  intros Hi Hr Ha. apply coordinator_logs_only. left.
  repeat split; apply String.eqb_neq; assumption.
Qed.

(** An INFORM whose payload is a mapping without the key
    [disaster_detected] (a plain status report) dispatches nobody: the
    iteration counts it, logs it, sends nothing and sleeps. *)
Theorem coordinator_status_report_sends_nothing
    (m : Message) (d : list (string * value))
    (s : CoordinatorAgent.CommunicationBehaviour) (w : World) :
  performative_of m = Performative.INFORM ->
  parse_body (body m) = VDict d ->
  lookup "disaster_detected" d = None ->
  CoordinatorAgent.run (Some m) s w
  = Ok tt
      {| CoordinatorAgent.log_file := CoordinatorAgent.log_file s;
         CoordinatorAgent.message_count := CoordinatorAgent.message_count s + 1;
         CoordinatorAgent.active_missions := CoordinatorAgent.active_missions s |}
      {| trace := trace w ++ [EvRecv m;
                              EvWrite (CoordinatorAgent.log_file s)
                                (entry_of EmptyString (clock (clock_reads w)) "RECEIVED" m
                                   (split_head "@" (str_of_opt (sender m))));
                              EvSleep 2];
         clock_reads := S (clock_reads w);
         send_attempts := send_attempts w |}.
Proof.
  intros Hperf Hbody Hkey. apply coordinator_logs_only. right. exists d.
  rewrite Hperf. split; [exact Hbody | split; [| reflexivity]].
  intros _. unfold dict_has. rewrite Hkey. reflexivity.
Qed.

(** A REQUEST whose body the decoder rejects is still agreed to: the
    payload falls back to the mapping of ["text"] to the body, which names
    no action, and the AGREE that goes out has [agreed_action] null. *)
Theorem coordinator_agrees_to_undecodable_request
    (m : Message) (P : string)
    (s : CoordinatorAgent.CommunicationBehaviour) (w : World) :
  performative_of m = Performative.REQUEST ->
  body m = Some P ->
  json_loads P = None ->
  accepts_next w 1 ->
  sent_messages (since w (world_of (CoordinatorAgent.run (Some m) s w)))
  = [CoordinatorAgent.agree_response (split_head "@" (str_of_opt (sender m))) VNone
       (clock (S (clock_reads w)))].
Proof.
  intros Hperf Hbody Hjson Hnet.
  destruct s as [file n missions]. destruct w as [tr k a].
  unfold performative_of in Hperf. exec.
  rewrite Hperf, Hbody. unfold parse_body. rewrite Hjson.
  change (String.eqb Performative.REQUEST Performative.INFORM) with false.
  change (String.eqb Performative.REQUEST Performative.REQUEST) with true. exec.
  rewrite (accepts_next_0 _ 0 _ Hnet). exec.
  repeat rewrite <- app_assoc. rewrite since_extended. reflexivity.
Qed.

End CoordinatorQuiet.

Lemma coordinator_agree_is_observed_only_witness :
  let rt := simple_runtime noon true in
  let s := CoordinatorAgent.init "coordinator_messages.log" in
  sent_messages (trace (world_of (CoordinatorAgent.run (Some agree_reply) s fresh_world))) = []
  /\ CoordinatorAgent.message_count
       (state_of (CoordinatorAgent.run (Some agree_reply) s fresh_world)) = 1.
Proof.
  intros rt s.
  assert (Hbody : parse_body (body agree_reply)
                  = VDict [("agreed_action", VStr "deploy_rescue_team");
                           ("location", VStr "Zone-7"); ("eta", VStr "5 minutes");
                           ("timestamp", VStr "11:59:58")])
    by (vm_compute; reflexivity).
  rewrite (coordinator_agree_is_observed_only (rt := rt) agree_reply _ s fresh_world
             eq_refl Hbody).
  split; reflexivity.
Defined.

(** A PROPOSE whose body is no JSON object raises nothing. *)
Lemma coordinator_ignores_other_performatives_witness :
  let rt := simple_runtime noon true in
  let s := CoordinatorAgent.init "coordinator_messages.log" in
  let m := raw_message "fieldagent1@404.city" "coordinator@404.city" Performative.PROPOSE "[]" in
  sent_messages (trace (world_of (CoordinatorAgent.run (Some m) s fresh_world))) = []
  /\ CoordinatorAgent.message_count (state_of (CoordinatorAgent.run (Some m) s fresh_world)) = 1.
Proof.
  intros rt s m.
  rewrite (coordinator_ignores_other_performatives (rt := rt) m s fresh_world);
    [split; reflexivity | discriminate | discriminate | discriminate].
Defined.

Lemma coordinator_status_report_sends_nothing_witness :
  let rt := simple_runtime noon true in
  let s := CoordinatorAgent.init "coordinator_messages.log" in
  sent_messages (trace (world_of (CoordinatorAgent.run (Some status_report) s fresh_world)))
  = [].
Proof.
  intros rt s.
  assert (Hbody : parse_body (body status_report)
                  = VDict [("status", VStr "operational"); ("agent", VStr "FieldAgent2");
                           ("location", VStr "Zone-4"); ("resources", VStr "available");
                           ("timestamp", VStr "11:59:58")])
    by (vm_compute; reflexivity).
  rewrite (coordinator_status_report_sends_nothing (rt := rt) status_report _ s fresh_world
             eq_refl Hbody eq_refl).
  reflexivity.
Defined.

(** The body [help!] is no JSON; the request is agreed to all the same. *)
Lemma coordinator_agrees_to_undecodable_request_witness :
  let rt := simple_runtime noon true in
  let s := CoordinatorAgent.init "coordinator_messages.log" in
  let m := raw_message "fieldagent1@404.city" "coordinator@404.city"
             Performative.REQUEST "help!" in
  sent_messages (since fresh_world (world_of (CoordinatorAgent.run (Some m) s fresh_world)))
  = [CoordinatorAgent.agree_response "fieldagent1" VNone noon].
Proof.
  intros rt s m.
  rewrite (coordinator_agrees_to_undecodable_request (rt := rt) m "help!" s fresh_world
             eq_refl eq_refl eq_refl (simple_runtime_accepts noon fresh_world 1)).
  reflexivity.
Defined.

(** ** What the poll does when the transport fails *)

Section CoordinatorPoll.
Context {rt : Runtime}.

(** The status poll of a silent iteration, with every answer of the
    transport.  If the send to fieldagent1 fails, its error ends the
    iteration and fieldagent2 is never tried; if the send to fieldagent2
    fails, the request to fieldagent1 has gone out and is logged.  Either
    way nothing is logged for the failed send. *)
Theorem coordinator_poll_outcomes
    (s : CoordinatorAgent.CommunicationBehaviour) (w : World) :
  CoordinatorAgent.message_count s mod 3 = 0 ->
  let k := clock_reads w in
  let a := send_attempts w in
  let file := CoordinatorAgent.log_file s in
  let r1 := CoordinatorAgent.status_request "fieldagent1" (clock k) in
  let r2 := CoordinatorAgent.status_request "fieldagent2" (clock (S (S k))) in
  let e1 := EvWrite file (entry_of EmptyString (clock (S k)) "SENT" r1 "fieldagent1") in
  let e2 := EvWrite file (entry_of EmptyString (clock (S (S (S k)))) "SENT" r2 "fieldagent2") in
  CoordinatorAgent.run None s w
  = if transport a r1
    then if transport (S a) r2
         then Ok tt s {| trace := trace w ++ [EvSend r1; e1; EvSend r2; e2; EvSleep 2];
                         clock_reads := S (S (S (S k)));
                         send_attempts := S (S a) |}
         else Raised DeliveryError s
                {| trace := trace w ++ [EvSend r1; e1; EvSendFailed r2];
                   clock_reads := S (S (S k));
                   send_attempts := S (S a) |}
    else Raised DeliveryError s
           {| trace := trace w ++ [EvSendFailed r1];
              clock_reads := S k;
              send_attempts := S a |}.
Proof.
  intros Hcount k a file r1 r2 e1 e2. subst k a file r1 r2 e1 e2.
  destruct s as [file n missions]. destruct w as [tr k a].
  cbn [CoordinatorAgent.message_count] in Hcount. exec.
  rewrite Hcount. cbn [Nat.eqb].
  destruct (transport a (CoordinatorAgent.status_request "fieldagent1" (clock k))); exec;
    [|same_world].
  destruct (transport (S a) (CoordinatorAgent.status_request "fieldagent2" (clock (S (S k)))));
    exec; same_world.
Qed.

End CoordinatorPoll.

(** With the transport down only fieldagent1 is tried. *)
Lemma coordinator_poll_outcomes_witness :
  let rt := simple_runtime noon false in
  let s := CoordinatorAgent.init "coordinator_messages.log" in
  trace (world_of (CoordinatorAgent.run None s fresh_world))
  = [EvSendFailed (CoordinatorAgent.status_request "fieldagent1" noon)].
Proof.
  intros rt s.
  rewrite (coordinator_poll_outcomes (rt := rt) s fresh_world eq_refl).
  reflexivity.
Defined.

(** ** Messages the field agent only logs *)

Lemma value_is_str_false (v : value) (s : string) :
  v <> VStr s -> value_is_str v s = false.
Proof.
  intros H. destruct v; try reflexivity. cbn [value_is_str].
  apply String.eqb_neq. intros E. apply H. rewrite E. reflexivity.
Qed.

Section FieldQuiet.
Context {rt : Runtime}.

Lemma field_logs_only (m : Message) (s : FieldAgent.CommunicationBehaviour) (w : World) :
  String.eqb (performative_of m) Performative.REQUEST = false
  \/ (exists d, parse_body (body m) = VDict d
                /\ value_is_str (dict_get d "request" VNone) "status_update" = false
                /\ value_is_str (dict_get d "request" VNone) "deploy_rescue_team" = false) ->
  FieldAgent.handle_incoming_message m s w
  = Ok tt s
      {| trace := trace w ++ [EvWrite (FieldAgent.log_file s)
                                (entry_of ("Agent: " ++ FieldAgent.agent_name s ++ nl)
                                   (clock (clock_reads w)) "RECEIVED" m
                                   (split_head "@" (str_of_opt (sender m))))];
         clock_reads := S (clock_reads w);
         send_attempts := send_attempts w |}.
Proof.
  intros H. destruct s as [file name c]. destruct w as [tr k a].
  unfold entry_of, performative_of in *. exec.
  destruct H as [Hr | (d & Hbody & Hstatus & Hdeploy)].
  - rewrite Hr. reflexivity.
  - cbn [body] in Hbody. rewrite Hbody, Hstatus, Hdeploy.
    destruct (String.eqb (dict_get (metadata m) "performative" "unknown") Performative.REQUEST);
      reflexivity.
Qed.

(** The field agent answers REQUESTs only.  A message of any other
    performative (an INFORM, an AGREE, none at all) is logged and nothing
    else happens, whatever its body is. *)
Theorem field_ignores_non_requests
    (m : Message) (s : FieldAgent.CommunicationBehaviour) (w : World) :
  performative_of m <> Performative.REQUEST ->
  FieldAgent.handle_incoming_message m s w
  = Ok tt s
      {| trace := trace w ++ [EvWrite (FieldAgent.log_file s)
                                (entry_of ("Agent: " ++ FieldAgent.agent_name s ++ nl)
                                   (clock (clock_reads w)) "RECEIVED" m
                                   (split_head "@" (str_of_opt (sender m))))];
         clock_reads := S (clock_reads w);
         send_attempts := send_attempts w |}.
Proof.
  intros H. apply field_logs_only. left. apply String.eqb_neq. exact H.
Qed.

(** A REQUEST whose payload is a mapping that asks for neither
    [status_update] nor [deploy_rescue_team] (another action, no action,
    an action that is no string) gets no answer: it is logged and nothing
    is sent, not even a refusal. *)
Theorem field_leaves_unknown_request_unanswered
    (m : Message) (d : list (string * value))
    (s : FieldAgent.CommunicationBehaviour) (w : World) :
  parse_body (body m) = VDict d ->
  dict_get d "request" VNone <> VStr "status_update" ->
  dict_get d "request" VNone <> VStr "deploy_rescue_team" ->
  FieldAgent.handle_incoming_message m s w
  = Ok tt s
      {| trace := trace w ++ [EvWrite (FieldAgent.log_file s)
                                (entry_of ("Agent: " ++ FieldAgent.agent_name s ++ nl)
                                   (clock (clock_reads w)) "RECEIVED" m
                                   (split_head "@" (str_of_opt (sender m))))];
         clock_reads := S (clock_reads w);
         send_attempts := send_attempts w |}.
Proof.
  intros Hbody Hstatus Hdeploy. apply field_logs_only. right. exists d.
  split; [exact Hbody | split; apply value_is_str_false; assumption].
Qed.

(** A message whose body the decoder rejects never makes the field agent
    raise or answer, whatever its performative: the payload falls back to
    the mapping of ["text"] to the body, which asks for nothing. *)
Theorem field_survives_undecodable_body
    (m : Message) (P : string)
    (s : FieldAgent.CommunicationBehaviour) (w : World) :
  body m = Some P ->
  json_loads P = None ->
  FieldAgent.handle_incoming_message m s w
  = Ok tt s
      {| trace := trace w ++ [EvWrite (FieldAgent.log_file s)
                                (entry_of ("Agent: " ++ FieldAgent.agent_name s ++ nl)
                                   (clock (clock_reads w)) "RECEIVED" m
                                   (split_head "@" (str_of_opt (sender m))))];
         clock_reads := S (clock_reads w);
         send_attempts := send_attempts w |}.
Proof.
  intros Hbody Hjson. apply field_logs_only. right.
  exists [("text", VStr P)]. rewrite Hbody. unfold parse_body. rewrite Hjson.
  repeat split.
Qed.

(** A REQUEST whose payload is not a mapping ends the iteration in the
    handler's [AttributeError] before the triggers are looked at: at no
    cycle count, multiple of 4 or 5 or not, does that iteration send its
    status or disaster INFORM.  The counter has advanced all the same. *)
Theorem field_bad_request_skips_triggers
    (m : Message) (s : FieldAgent.CommunicationBehaviour) (w : World) :
  performative_of m = Performative.REQUEST ->
  (forall d, parse_body (body m) <> VDict d) ->
  FieldAgent.run (Some m) s w
  = Raised AttributeError
      {| FieldAgent.log_file := FieldAgent.log_file s;
         FieldAgent.agent_name := FieldAgent.agent_name s;
         FieldAgent.cycle_count := FieldAgent.cycle_count s + 1 |}
      {| trace := trace w ++ [EvRecv m;
                              EvWrite (FieldAgent.log_file s)
                                (entry_of ("Agent: " ++ FieldAgent.agent_name s ++ nl)
                                   (clock (clock_reads w)) "RECEIVED" m
                                   (split_head "@" (str_of_opt (sender m))))];
         clock_reads := S (clock_reads w);
         send_attempts := send_attempts w |}.
Proof.
  intros Hperf Hbody. destruct s as [file name c]. destruct w as [tr k a].
  unfold entry_of, performative_of in *. cbn [body] in Hbody. exec.
  rewrite Hperf.
  change (String.eqb Performative.REQUEST Performative.REQUEST) with true. cbv iota.
  destruct (parse_body (body m)) eqn:E;
    try solve [exfalso; eapply Hbody; reflexivity];
    exec; same_world.
Qed.

(** An iteration that receives a status_update REQUEST answers it with a
    status INFORM and then runs its triggers as in any other iteration: at
    a cycle count that is a multiple of 4 the coordinator gets two status
    INFORMs from the one iteration.  The answer carries the zone of the
    cycle count already advanced for this iteration. *)
Theorem field_status_reply_then_triggers
    (m : Message) (d : list (string * value))
    (s : FieldAgent.CommunicationBehaviour) (w : World) :
  performative_of m = Performative.REQUEST ->
  parse_body (body m) = VDict d ->
  lookup "request" d = Some (VStr "status_update") ->
  accepts_next w 3 ->
  let c := FieldAgent.cycle_count s + 1 in
  let s1 := {| FieldAgent.log_file := FieldAgent.log_file s;
               FieldAgent.agent_name := FieldAgent.agent_name s;
               FieldAgent.cycle_count := c |} in
  let k := clock_reads w in
  let fires4 := (c mod 4 =? 0)%nat in
  let fires5 := (c mod 5 =? 0)%nat in
  sent_messages (since w (world_of (FieldAgent.run (Some m) s w)))
  = (FieldAgent.status_inform s1 (clock (S k))
     :: (if fires4 then [FieldAgent.status_inform s1 (clock (3 + k))] else [])
     ++ (if fires5
         then [FieldAgent.disaster_inform s1 (clock (if fires4 then 5 + k else 3 + k))]
         else []))%list.
Proof.
  intros Hperf Hbody Hreq Hnet c s1 k fires4 fires5. subst c s1 k fires4 fires5.
  assert (Hreq' : dict_get d "request" VNone = VStr "status_update")
    by (unfold dict_get; rewrite Hreq; reflexivity).
  assert (H0 : forall x, transport (send_attempts w) x = true)
    by (intros x; apply (accepts_next_0 w 2 x Hnet)).
  assert (H1 : forall x, transport (S (send_attempts w)) x = true)
    by (intros x; apply (accepts_next_1 w 1 x Hnet)).
  assert (H2 : forall x, transport (S (S (send_attempts w))) x = true).
  { intros x. specialize (Hnet 2 x). replace (send_attempts w + 2) with (S (S (send_attempts w)))
      in Hnet by lia. apply Hnet. lia. }
  destruct s as [file name c]. destruct w as [tr k a].
  unfold performative_of in Hperf. cbn [body] in Hbody.
  cbn [send_attempts] in H0, H1, H2. exec.
  rewrite Hperf, Hbody.
  change (String.eqb Performative.REQUEST Performative.REQUEST) with true. exec.
  rewrite Hreq'.
  change (value_is_str (VStr "status_update") "status_update") with true. exec.
  rewrite H0. exec.
  destruct ((c + 1) mod 4 =? 0)%nat; exec.
  - rewrite H1. exec.
    destruct ((c + 1) mod 5 =? 0)%nat; exec.
    + rewrite H2. exec. repeat rewrite <- app_assoc. rewrite since_extended. reflexivity.
    + repeat rewrite <- app_assoc. rewrite since_extended. reflexivity.
  - destruct ((c + 1) mod 5 =? 0)%nat; exec.
    + rewrite H1. exec. repeat rewrite <- app_assoc. rewrite since_extended. reflexivity.
    + repeat rewrite <- app_assoc. rewrite since_extended. reflexivity.
Qed.

End FieldQuiet.

(** The coordinator's AGREE to a field agent is only logged there. *)
Lemma field_ignores_non_requests_witness :
  let rt := simple_runtime noon true in
  let s := FieldAgent.init "field_agent_messages.log" "FieldAgent1" in
  let m := raw_message "coordinator@404.city" "fieldagent1@404.city" Performative.AGREE "[]" in
  sent_messages (trace (world_of (FieldAgent.handle_incoming_message m s fresh_world))) = [].
Proof.
  intros rt s m.
  rewrite (field_ignores_non_requests (rt := rt) m s fresh_world); [reflexivity | discriminate].
Defined.

(** A request to evacuate is not one the field agent knows. *)
Lemma field_leaves_unknown_request_unanswered_witness :
  let rt := simple_runtime noon true in
  let s := FieldAgent.init "field_agent_messages.log" "FieldAgent1" in
  let m := request_from "coordinator@404.city" "fieldagent1@404.city"
             (VDict [("request", VStr "evacuate")]) in
  sent_messages (trace (world_of (FieldAgent.handle_incoming_message m s fresh_world))) = [].
Proof.
  intros rt s m.
  assert (Hbody : parse_body (body m) = VDict [("request", VStr "evacuate")])
    by (vm_compute; reflexivity).
  rewrite (field_leaves_unknown_request_unanswered (rt := rt) m _ s fresh_world Hbody);
    [reflexivity | discriminate | discriminate].
Defined.

Lemma field_survives_undecodable_body_witness :
  let rt := simple_runtime noon true in
  let s := FieldAgent.init "field_agent_messages.log" "FieldAgent1" in
  let m := raw_message "coordinator@404.city" "fieldagent1@404.city"
             Performative.REQUEST "help!" in
  sent_messages (trace (world_of (FieldAgent.handle_incoming_message m s fresh_world))) = [].
Proof.
  intros rt s m.
  rewrite (field_survives_undecodable_body (rt := rt) m "help!" s fresh_world eq_refl eq_refl).
  reflexivity.
Defined.

(** At cycle count 20 both triggers are due; the bad request takes them
    with it. *)
Lemma field_bad_request_skips_triggers_witness :
  let rt := simple_runtime noon true in
  let s := {| FieldAgent.log_file := "field_agent_messages.log";
              FieldAgent.agent_name := "FieldAgent1";
              FieldAgent.cycle_count := 19 |} in
  let m := array_request "coordinator@404.city" "fieldagent1@404.city" in
  sent_messages (trace (world_of (FieldAgent.run (Some m) s fresh_world))) = []
  /\ FieldAgent.cycle_count (state_of (FieldAgent.run (Some m) s fresh_world)) = 20.
Proof.
  intros rt s m.
  assert (Hbody : forall d, parse_body (body m) <> VDict d) by (intros d; discriminate).
  rewrite (field_bad_request_skips_triggers (rt := rt) m s fresh_world eq_refl Hbody).
  split; reflexivity.
Defined.

(** A status query in the fourth iteration: two status INFORMs. *)
Lemma field_status_reply_then_triggers_witness :
  let rt := simple_runtime noon true in
  let s := {| FieldAgent.log_file := "field_agent_messages.log";
              FieldAgent.agent_name := "FieldAgent1";
              FieldAgent.cycle_count := 3 |} in
  let s1 := {| FieldAgent.log_file := "field_agent_messages.log";
               FieldAgent.agent_name := "FieldAgent1";
               FieldAgent.cycle_count := 4 |} in
  let m := status_query "coordinator@404.city" "fieldagent1@404.city" in
  sent_messages (since fresh_world (world_of (FieldAgent.run (Some m) s fresh_world)))
  = [FieldAgent.status_inform s1 noon; FieldAgent.status_inform s1 noon].
Proof.
  intros rt s s1 m.
  assert (Hbody : parse_body (body m)
                  = VDict [("request", VStr "status_update"); ("timestamp", VStr "11:59:58")])
    by (vm_compute; reflexivity).
  rewrite (field_status_reply_then_triggers (rt := rt) m _ s fresh_world eq_refl Hbody eq_refl
             (simple_runtime_accepts noon fresh_world 3)).
  reflexivity.
Defined.

(** ** Where and what the field agent reports *)

Section DisasterSchedule.
Context {rt : Runtime}.

Lemma mod_20_splits (c : nat) :
  c mod 4 = (c mod 20) mod 4 /\ c mod 10 = (c mod 20) mod 10 /\ c mod 5 = (c mod 20) mod 5.
Proof.
  pose proof (Nat.div_mod_eq c 20) as H.
  pose proof (Nat.mod_upper_bound c 20 ltac:(discriminate)) as Hlt.
  set (q := c / 20) in *. set (r := c mod 20) in *.
  repeat split.
  - rewrite H. replace (20 * q + r) with (r + (5 * q) * 4) by lia.
    apply Nat.Div0.mod_add.
  - rewrite H. replace (20 * q + r) with (r + (2 * q) * 10) by lia.
    apply Nat.Div0.mod_add.
  - rewrite H. replace (20 * q + r) with (r + (4 * q) * 5) by lia.
    apply Nat.Div0.mod_add.
Qed.

(** The disaster report follows a fixed round of twenty iterations.  It is
    sent at cycle counts that are multiples of 5, and there the type and
    the zone are tied together: Fire and Earthquake are always reported in
    Zone-0, Flood and Building Collapse always in Zone-5, in the order
    Flood, Earthquake, Building Collapse, Fire.  No other zone and no
    other pairing is ever reported, and the index into the list of types
    is never out of range. *)
Theorem disaster_report_round (self : FieldAgent.CommunicationBehaviour) (t : datetime) :
  FieldAgent.cycle_count self mod 5 = 0 ->
  let '(disaster_type, zone) :=
    match FieldAgent.cycle_count self mod 20 with
    | 0 => ("Fire", "Zone-0")
    | 5 => ("Flood", "Zone-5")
    | 10 => ("Earthquake", "Zone-0")
    | _ => ("Building Collapse", "Zone-5")
    end in
  FieldAgent.disaster_inform self t
  = new_message "coordinator@404.city" Performative.INFORM
      (json_dumps (VDict [("status", VStr "alert");
                          ("disaster_detected", VStr disaster_type);
                          ("severity", VStr "high");
                          ("location", VStr zone);
                          ("timestamp", VStr (strftime_time t))])).
Proof.
  intros H5. unfold FieldAgent.disaster_inform.
  destruct (mod_20_splits (FieldAgent.cycle_count self)) as (H4 & H10 & H5').
  pose proof (Nat.mod_upper_bound (FieldAgent.cycle_count self) 20 ltac:(discriminate)) as Hlt.
  change (length FieldAgent.disasters) with 4.
  rewrite H4, H10. rewrite H5' in H5. clear H4 H10 H5'.
  set (r := FieldAgent.cycle_count self mod 20) in *.
  do 20 (destruct r as [|r]; [first [discriminate H5 | reflexivity]|]).
  exfalso. lia.
Qed.

End DisasterSchedule.

Lemma disaster_report_round_witness :
  let rt := simple_runtime noon true in
  let self := {| FieldAgent.log_file := "field_agent_messages.log";
                 FieldAgent.agent_name := "FieldAgent2";
                 FieldAgent.cycle_count := 35 |} in
  body (FieldAgent.disaster_inform self noon)
  = Some (json_dumps (VDict [("status", VStr "alert");
                             ("disaster_detected", VStr "Building Collapse");
                             ("severity", VStr "high");
                             ("location", VStr "Zone-5");
                             ("timestamp", VStr "12:00:00")])).
Proof.
  intros rt self.
  pose proof (disaster_report_round (rt := rt) self noon eq_refl) as H.
  cbv beta iota zeta in H. rewrite H. reflexivity.
Defined.

(** ** What an iteration can send *)

Ltac pick :=
  cbv beta iota;
  match goal with
  | |- _ /\ _ => split; pick
  | |- _ \/ _ => first [solve [left; pick] | solve [right; pick]]
  | |- _ = _ => reflexivity
  | |- _ <= _ => repeat constructor
  end.

Ltac sends_leaf :=
  cbv [world_of]; try rewrite since_same;
  repeat rewrite <- app_assoc; cbn [app]; try rewrite since_extended;
  cbn [sent_messages length];
  split; [repeat constructor; pick | repeat constructor].

Section Sends.
Context {rt : Runtime}.

(** Whatever arrives and however the iteration ends, the coordinator sends
    nothing but REQUESTs to fieldagent1@404.city or fieldagent2@404.city
    and AGREEs: never an INFORM, never a REFUSE.  It sends at most one
    message in an iteration that received one, at most two in a silent
    one. *)
Theorem coordinator_sends_requests_and_agrees (inbound : option Message)
    (s : CoordinatorAgent.CommunicationBehaviour) (w : World) :
  let sent := sent_messages (since w (world_of (CoordinatorAgent.run inbound s w))) in
  Forall (fun x =>
            performative_of x = Performative.REQUEST
            /\ (to x = "fieldagent1@404.city" \/ to x = "fieldagent2@404.city")
            \/ performative_of x = Performative.AGREE
               /\ match inbound with
                  | Some m => to x = split_head "@" (str_of_opt (sender m)) ++ "@404.city"
                  | None => False
                  end)
         sent
  /\ length sent <= match inbound with Some _ => 1 | None => 2 end.
Proof.
  cbv zeta. destruct s as [file n missions]. destruct w as [tr k a].
  destruct inbound as [m|]; exec; repeat branch; sends_leaf.
Qed.

(** Whatever arrives and however the iteration ends, the field agent sends
    nothing but INFORMs to coordinator@404.city and an AGREE to the very
    address the message of the iteration came from: never a REQUEST, never
    a REFUSE.  It sends at most three messages in an iteration, at most two
    in a silent one. *)
Theorem field_sends_informs_and_agrees (inbound : option Message)
    (s : FieldAgent.CommunicationBehaviour) (w : World) :
  let sent := sent_messages (since w (world_of (FieldAgent.run inbound s w))) in
  Forall (fun x =>
            performative_of x = Performative.INFORM /\ to x = "coordinator@404.city"
            \/ performative_of x = Performative.AGREE
               /\ match inbound with
                  | Some m => to x = str_of_opt (sender m)
                  | None => False
                  end)
         sent
  /\ length sent <= match inbound with Some _ => 3 | None => 2 end.
Proof.
  cbv zeta. destruct s as [file name c]. destruct w as [tr k a].
  destruct inbound as [m|]; exec; repeat branch; sends_leaf.
Qed.

End Sends.

(** ** Each behaviour writes its own log only *)

Lemma string_app_nil_r (s : string) : (s ++ EmptyString)%string = s.
Proof. induction s as [|c s IH]; simpl; [reflexivity | rewrite IH; reflexivity]. Qed.

Lemma audited_other_file {rt : Runtime} (line file f : string) (evs : list event) :
  audited line file evs -> String.eqb file f = false -> file_content f evs = EmptyString.
Proof.
  intros Haud Hf. induction Haud; cbn [file_content]; try rewrite Hf; assumption || reflexivity.
Qed.

Section OwnLog.
Context {rt : Runtime}.

(** An iteration appends to the log file of its own behaviour and touches
    no other file: the bytes of every other file are after the iteration
    what they were before, whatever arrived and however it ended. *)
Theorem iteration_writes_own_log_only (inbound : option Message)
    (sc : CoordinatorAgent.CommunicationBehaviour)
    (sf : FieldAgent.CommunicationBehaviour) (w : World) (f g : string) :
  f <> CoordinatorAgent.log_file sc ->
  g <> FieldAgent.log_file sf ->
  file_content f (trace (world_of (CoordinatorAgent.run inbound sc w)))
  = file_content f (trace w)
  /\ file_content g (trace (world_of (FieldAgent.run inbound sf w)))
     = file_content g (trace w).
Proof.
  intros Hf Hg. split.
  - destruct (coordinator_run_shape inbound sc w) as [(Htrace & _) Haud].
    rewrite Htrace, file_content_app.
    rewrite (audited_other_file _ _ f _ Haud); [apply string_app_nil_r|].
    apply String.eqb_neq. congruence.
  - destruct (field_run_shape inbound sf w) as [(Htrace & _) Haud].
    rewrite Htrace, file_content_app.
    rewrite (audited_other_file _ _ g _ Haud); [apply string_app_nil_r|].
    apply String.eqb_neq. congruence.
Qed.

End OwnLog.

(** The coordinator's iteration leaves the field agents' log alone. *)
Lemma iteration_writes_own_log_only_witness :
  let rt := simple_runtime noon true in
  let sc := CoordinatorAgent.init "coordinator_messages.log" in
  let sf := FieldAgent.init "field_agent_messages.log" "FieldAgent1" in
  file_content "field_agent_messages.log"
    (trace (world_of (CoordinatorAgent.run (Some fire_report) sc fresh_world)))
  = EmptyString.
Proof.
  intros rt sc sf.
  destruct (iteration_writes_own_log_only (rt := rt) (Some fire_report) sc sf fresh_world
              "field_agent_messages.log" "coordinator_messages.log")
    as [H _]; [discriminate | discriminate | exact H].
Defined.

(** ** The address an AGREE of the coordinator goes to *)

Lemma split_head_has_no_sep (c : ascii) (s : string) :
  has_char c (split_head c s) = false.
Proof.
  induction s as [|a s IH]; simpl; [reflexivity|].
  destruct (Ascii.eqb a c) eqn:E; simpl; [reflexivity|].
  rewrite E. exact IH.
Qed.

Lemma split_head_is_prefix (c : ascii) (s : string) :
  exists rest, s = (split_head c s ++ rest)%string.
Proof.
  induction s as [|a s [rest IH]]; simpl.
  - exists EmptyString. reflexivity.
  - destruct (Ascii.eqb a c).
    + exists (String a s). reflexivity.
    + exists rest. simpl. rewrite <- IH. reflexivity.
Qed.

Lemma split_head_rest (c : ascii) (s : string) :
  exists rest, s = (split_head c s ++ rest)%string
               /\ (rest = EmptyString \/ exists r, rest = String c r).
Proof.
  induction s as [|a s (rest & IH & Hrest)]; simpl.
  - exists EmptyString. split; [reflexivity | left; reflexivity].
  - destruct (Ascii.eqb a c) eqn:E.
    + apply Ascii.eqb_eq in E. subst a. exists (String c s).
      split; [reflexivity | right; exists s; reflexivity].
    + exists rest. split; [simpl; rewrite <- IH; reflexivity | exact Hrest].
Qed.

Section AgreeRecipient.
Context {rt : Runtime}.

(** Where the coordinator's answer to a REQUEST goes.  The one message the
    iteration sends is addressed to [name@404.city], where [name] is the
    sender's address up to its first [@] (all of it when it has none), so
    [name] has no [@] in it.  What follows [name] in the sender's address,
    its domain and any resource, is not used: the answer goes to the
    sender's own address exactly when that rest is [@404.city]. *)
Theorem coordinator_agree_recipient
    (m : Message) (d : list (string * value))
    (s : CoordinatorAgent.CommunicationBehaviour) (w : World) :
  performative_of m = Performative.REQUEST ->
  parse_body (body m) = VDict d ->
  accepts_next w 1 ->
  let name := split_head "@" (str_of_opt (sender m)) in
  map to (sent_messages (since w (world_of (CoordinatorAgent.run (Some m) s w))))
  = [name ++ "@404.city"]
  /\ has_char "@" name = false
  /\ exists rest,
       str_of_opt (sender m) = name ++ rest
       /\ (rest = EmptyString \/ exists r, rest = String "@" r)
       /\ (name ++ "@404.city" = str_of_opt (sender m) <-> rest = "@404.city").
Proof.
  intros Hperf Hbody Hnet name. subst name.
  destruct (coordinator_agrees_to_request m d s w Hperf Hbody Hnet) as (Hrun & _).
  split; [|split].
  - rewrite Hrun. cbv [world_of]. destruct w as [tr k a]. cbn [trace clock_reads send_attempts].
    rewrite since_extended. reflexivity.
  - apply split_head_has_no_sep.
  - destruct (split_head_rest "@" (str_of_opt (sender m))) as (rest & Hsplit & Hrest).
    exists rest. split; [exact Hsplit|]. split; [exact Hrest|].
    split; intros E.
    + rewrite Hsplit in E at 2. apply string_app_inv_head in E. symmetry. exact E.
    + rewrite Hsplit at 2. rewrite E. reflexivity.
Qed.

End AgreeRecipient.

(** A requester with a resource part is answered at its bare address. *)
Lemma coordinator_agree_recipient_witness :
  let rt := simple_runtime noon true in
  let s := CoordinatorAgent.init "coordinator_messages.log" in
  let m := status_query "fieldagent1@404.city/lab4" "coordinator@404.city" in
  map to (sent_messages (since fresh_world (world_of (CoordinatorAgent.run (Some m) s fresh_world))))
  = ["fieldagent1@404.city"].
Proof.
  intros rt s m.
  assert (Hbody : parse_body (body m)
                  = VDict [("request", VStr "status_update"); ("timestamp", VStr "11:59:58")])
    by (vm_compute; reflexivity).
  destruct (coordinator_agree_recipient (rt := rt) m _ s fresh_world eq_refl Hbody
              (simple_runtime_accepts noon fresh_world 1)) as (H & _).
  exact H.
Defined.

(** ** The counters *)

Section Counters.
Context {rt : Runtime}.

Lemma coordinator_state_after (inbound : option Message)
    (s : CoordinatorAgent.CommunicationBehaviour) (w : World) :
  state_of (CoordinatorAgent.run inbound s w)
  = {| CoordinatorAgent.log_file := CoordinatorAgent.log_file s;
       CoordinatorAgent.message_count := CoordinatorAgent.message_count s + arrivals [inbound];
       CoordinatorAgent.active_missions := CoordinatorAgent.active_missions s |}.
Proof.
  destruct s as [file n missions]. destruct w as [tr k a].
  destruct inbound as [m|]; exec; repeat branch;
    cbv [state_of arrivals]; f_equal; lia.
Qed.

Lemma field_state_after (inbound : option Message)
    (s : FieldAgent.CommunicationBehaviour) (w : World) :
  state_of (FieldAgent.run inbound s w)
  = {| FieldAgent.log_file := FieldAgent.log_file s;
       FieldAgent.agent_name := FieldAgent.agent_name s;
       FieldAgent.cycle_count := FieldAgent.cycle_count s + 1 |}.
Proof.
  destruct s as [file name c]. destruct w as [tr k a].
  destruct inbound as [m|]; exec; repeat branch; reflexivity.
Qed.

Lemma coordinator_loop_state (resume : bool) (schedule : list (option Message)) :
  forall (s : CoordinatorAgent.CommunicationBehaviour) (w : World),
    let s' := fst (run_loop CoordinatorAgent.run resume schedule s w) in
    CoordinatorAgent.log_file s' = CoordinatorAgent.log_file s
    /\ CoordinatorAgent.active_missions s' = CoordinatorAgent.active_missions s
    /\ CoordinatorAgent.message_count s'
       <= CoordinatorAgent.message_count s + arrivals schedule
    /\ (resume = true ->
        CoordinatorAgent.message_count s'
        = CoordinatorAgent.message_count s + arrivals schedule).
Proof.
  induction schedule as [|inbound rest IH]; intros s w; cbn [run_loop].
  - cbn [fst arrivals]. repeat split; lia.
  - pose proof (coordinator_state_after inbound s w) as Hs.
    assert (Harr : arrivals (inbound :: rest) = arrivals [inbound] + arrivals rest)
      by (destruct inbound; reflexivity).
    assert (Hstep : forall s1 w1,
               s1 = state_of (CoordinatorAgent.run inbound s w) ->
               let s' := fst (run_loop CoordinatorAgent.run resume rest s1 w1) in
               CoordinatorAgent.log_file s' = CoordinatorAgent.log_file s
               /\ CoordinatorAgent.active_missions s' = CoordinatorAgent.active_missions s
               /\ CoordinatorAgent.message_count s'
                  <= CoordinatorAgent.message_count s + arrivals (inbound :: rest)
               /\ (resume = true ->
                   CoordinatorAgent.message_count s'
                   = CoordinatorAgent.message_count s + arrivals (inbound :: rest))).
    { intros s1 w1 E. rewrite Hs in E. subst s1.
      match goal with
      | |- context [run_loop _ _ _ ?s1 w1] => destruct (IH s1 w1) as (H1 & H2 & H3 & H4)
      end.
      cbn [CoordinatorAgent.log_file CoordinatorAgent.active_missions
           CoordinatorAgent.message_count] in H1, H2, H3, H4.
      cbv zeta. repeat split; try assumption; try lia.
      intros R. specialize (H4 R). lia. }
    destruct (CoordinatorAgent.run inbound s w) as [u s1 w1|e s1 w1]; cbn [state_of] in *.
    + apply Hstep; reflexivity.
    + destruct resume; [apply Hstep; reflexivity|].
      cbv zeta. cbn [fst]. rewrite Hs.
      cbn [CoordinatorAgent.log_file CoordinatorAgent.active_missions
           CoordinatorAgent.message_count].
      repeat split; try lia; try discriminate.
Qed.

(** [message_count] is the number of messages received: over a loop that
    goes on after errors it has grown by exactly the number of iterations
    that got a message, those whose handling raised included, and over a
    loop that ends at the first error by no more.  The log file never
    changes and [active_missions] is never added to. *)
Theorem coordinator_counts_received_messages
    (schedule : list (option Message))
    (s : CoordinatorAgent.CommunicationBehaviour) (w : World) :
  let s_on := fst (run_loop CoordinatorAgent.run true schedule s w) in
  let s_end := fst (run_loop CoordinatorAgent.run false schedule s w) in
  CoordinatorAgent.message_count s_on = CoordinatorAgent.message_count s + arrivals schedule
  /\ CoordinatorAgent.message_count s_end <= CoordinatorAgent.message_count s + arrivals schedule
  /\ CoordinatorAgent.active_missions s_on = CoordinatorAgent.active_missions s
  /\ CoordinatorAgent.active_missions s_end = CoordinatorAgent.active_missions s
  /\ CoordinatorAgent.log_file s_on = CoordinatorAgent.log_file s
  /\ CoordinatorAgent.log_file s_end = CoordinatorAgent.log_file s.
Proof.
  cbv zeta.
  destruct (coordinator_loop_state true schedule s w) as (L1 & A1 & _ & C1).
  destruct (coordinator_loop_state false schedule s w) as (L2 & A2 & C2 & _).
  repeat split; auto.
Qed.

Lemma field_loop_state (resume : bool) (schedule : list (option Message)) :
  forall (s : FieldAgent.CommunicationBehaviour) (w : World),
    let s' := fst (run_loop FieldAgent.run resume schedule s w) in
    FieldAgent.log_file s' = FieldAgent.log_file s
    /\ FieldAgent.agent_name s' = FieldAgent.agent_name s
    /\ FieldAgent.cycle_count s' <= FieldAgent.cycle_count s + length schedule
    /\ (resume = true ->
        FieldAgent.cycle_count s' = FieldAgent.cycle_count s + length schedule).
Proof.
  induction schedule as [|inbound rest IH]; intros s w; cbn [run_loop].
  - cbn [fst length]. repeat split; lia.
  - pose proof (field_state_after inbound s w) as Hs.
    assert (Hstep : forall s1 w1,
               s1 = state_of (FieldAgent.run inbound s w) ->
               let s' := fst (run_loop FieldAgent.run resume rest s1 w1) in
               FieldAgent.log_file s' = FieldAgent.log_file s
               /\ FieldAgent.agent_name s' = FieldAgent.agent_name s
               /\ FieldAgent.cycle_count s'
                  <= FieldAgent.cycle_count s + length (inbound :: rest)
               /\ (resume = true ->
                   FieldAgent.cycle_count s'
                   = FieldAgent.cycle_count s + length (inbound :: rest))).
    { intros s1 w1 E. rewrite Hs in E. subst s1.
      match goal with
      | |- context [run_loop _ _ _ ?s1 w1] => destruct (IH s1 w1) as (H1 & H2 & H3 & H4)
      end.
      cbn [FieldAgent.log_file FieldAgent.agent_name FieldAgent.cycle_count] in H1, H2, H3, H4.
      cbv zeta. cbn [length]. repeat split; try assumption; try lia.
      intros R. specialize (H4 R). lia. }
    destruct (FieldAgent.run inbound s w) as [u s1 w1|e s1 w1]; cbn [state_of] in *.
    + apply Hstep; reflexivity.
    + destruct resume; [apply Hstep; reflexivity|].
      cbv zeta. cbn [fst length]. rewrite Hs.
      cbn [FieldAgent.log_file FieldAgent.agent_name FieldAgent.cycle_count].
      repeat split; try lia; try discriminate.
Qed.

(** [cycle_count] is the number of iterations begun: over a loop that
    goes on after errors it has grown by exactly the length of the
    schedule, with or without messages and errors, and over a loop that
    ends at the first error by no more.  The agent's name and log file
    never change. *)
Theorem field_counts_iterations
    (schedule : list (option Message))
    (s : FieldAgent.CommunicationBehaviour) (w : World) :
  let s_on := fst (run_loop FieldAgent.run true schedule s w) in
  let s_end := fst (run_loop FieldAgent.run false schedule s w) in
  FieldAgent.cycle_count s_on = FieldAgent.cycle_count s + length schedule
  /\ FieldAgent.cycle_count s_end <= FieldAgent.cycle_count s + length schedule
  /\ FieldAgent.agent_name s_on = FieldAgent.agent_name s
  /\ FieldAgent.agent_name s_end = FieldAgent.agent_name s
  /\ FieldAgent.log_file s_on = FieldAgent.log_file s
  /\ FieldAgent.log_file s_end = FieldAgent.log_file s.
Proof.
  cbv zeta.
  destruct (field_loop_state true schedule s w) as (L1 & A1 & _ & C1).
  destruct (field_loop_state false schedule s w) as (L2 & A2 & C2 & _).
  repeat split; auto.
Qed.

End Counters.

(** ** Runs of silent iterations *)

Lemma since_of_extension (w w' : World) (evs : list event) :
  trace w' = (trace w ++ evs)%list -> since w w' = evs.
Proof.
  intros H. unfold since. rewrite H, skipn_app, skipn_all, Nat.sub_diag. reflexivity.
Qed.

Lemma div_step_4 (x : nat) :
  S x / 4 = x / 4 + (if (S x mod 4 =? 0)%nat then 1 else 0).
Proof.
  pose proof (Nat.div_mod_eq x 4). pose proof (Nat.div_mod_eq (S x) 4).
  pose proof (Nat.mod_upper_bound x 4 ltac:(discriminate)).
  pose proof (Nat.mod_upper_bound (S x) 4 ltac:(discriminate)).
  destruct (Nat.eqb_spec (S x mod 4) 0); lia.
Qed.

Lemma div_step_5 (x : nat) :
  S x / 5 = x / 5 + (if (S x mod 5 =? 0)%nat then 1 else 0).
Proof.
  pose proof (Nat.div_mod_eq x 5). pose proof (Nat.div_mod_eq (S x) 5).
  pose proof (Nat.mod_upper_bound x 5 ltac:(discriminate)).
  pose proof (Nat.mod_upper_bound (S x) 5 ltac:(discriminate)).
  destruct (Nat.eqb_spec (S x mod 5) 0); lia.
Qed.

Section SilentRuns.
Context {rt : Runtime}.

Lemma coordinator_silent_step (s : CoordinatorAgent.CommunicationBehaviour) (w : World) :
  (forall k m, transport k m = true) ->
  exists w' evs,
    CoordinatorAgent.run None s w = Ok tt s w'
    /\ trace w' = (trace w ++ evs)%list
    /\ length (sent_messages evs)
       = (if (CoordinatorAgent.message_count s mod 3 =? 0)%nat then 2 else 0)
    /\ count is_sleep evs = 1.
Proof.
  intros Hnet. destruct s as [file n missions]. destruct w as [tr k a]. exec.
  destruct (n mod 3 =? 0)%nat; exec.
  - rewrite Hnet. exec. rewrite Hnet. exec.
    do 2 eexists. split; [reflexivity|]. cbn [trace]. repeat rewrite <- app_assoc.
    split; [reflexivity|]. split; reflexivity.
  - do 2 eexists. split; [reflexivity|]. cbn [trace].
    split; [reflexivity|]. split; reflexivity.
Qed.

Lemma coordinator_silent_loop (resume : bool)
    (s : CoordinatorAgent.CommunicationBehaviour) (n : nat) :
  (forall k m, transport k m = true) ->
  forall w, exists evs,
    fst (run_loop CoordinatorAgent.run resume (repeat None n) s w) = s
    /\ trace (snd (run_loop CoordinatorAgent.run resume (repeat None n) s w))
       = (trace w ++ evs)%list
    /\ length (sent_messages evs)
       = (if (CoordinatorAgent.message_count s mod 3 =? 0)%nat then 2 * n else 0)
    /\ count is_sleep evs = n.
Proof.
  intros Hnet. induction n as [|n IH]; intros w; cbn [repeat run_loop].
  - exists []. cbn [fst snd]. rewrite app_nil_r.
    repeat split. destruct (_ =? 0)%nat; reflexivity.
  - destruct (coordinator_silent_step s w Hnet) as (w1 & evs1 & Hrun & Htr & Hsent & Hsleep).
    rewrite Hrun. destruct (IH w1) as (evs2 & Hs & Htr2 & Hsent2 & Hsleep2).
    exists (evs1 ++ evs2)%list. split; [exact Hs|].
    split; [rewrite Htr2, Htr, app_assoc; reflexivity|].
    rewrite sent_messages_app, length_app, count_app, Hsent, Hsent2, Hsleep, Hsleep2.
    destruct (_ =? 0)%nat; split; lia.
Qed.

(** A coordinator that hears nothing polls in every iteration or in none.
    Over [n] silent iterations with a transport that takes every message it
    sends [2 * n] status requests when the number of messages received
    before is a multiple of 3, and none otherwise; it sleeps [n] times and
    its state is what it was. *)
Theorem coordinator_silent_run (resume : bool)
    (s : CoordinatorAgent.CommunicationBehaviour) (w : World) (n : nat) :
  (forall k m, transport k m = true) ->
  let w' := snd (run_loop CoordinatorAgent.run resume (repeat None n) s w) in
  fst (run_loop CoordinatorAgent.run resume (repeat None n) s w) = s
  /\ length (sent_messages (since w w'))
     = (if (CoordinatorAgent.message_count s mod 3 =? 0)%nat then 2 * n else 0)
  /\ count is_sleep (since w w') = n.
Proof.
  intros Hnet. cbv zeta.
  destruct (coordinator_silent_loop resume s n Hnet w) as (evs & Hs & Htr & Hsent & Hsleep).
  rewrite (since_of_extension _ _ _ Htr). auto.
Qed.

Lemma field_silent_step (s : FieldAgent.CommunicationBehaviour) (w : World) :
  (forall k m, transport k m = true) ->
  exists w' evs,
    FieldAgent.run None s w
    = Ok tt {| FieldAgent.log_file := FieldAgent.log_file s;
               FieldAgent.agent_name := FieldAgent.agent_name s;
               FieldAgent.cycle_count := S (FieldAgent.cycle_count s) |} w'
    /\ trace w' = (trace w ++ evs)%list
    /\ length (sent_messages evs)
       = (if (S (FieldAgent.cycle_count s) mod 4 =? 0)%nat then 1 else 0)
         + (if (S (FieldAgent.cycle_count s) mod 5 =? 0)%nat then 1 else 0).
Proof.
  intros Hnet. destruct s as [file name c]. destruct w as [tr k a]. exec.
  rewrite Nat.add_1_r.
  destruct (S c mod 4 =? 0)%nat; exec; rewrite ?Hnet; exec;
    destruct (S c mod 5 =? 0)%nat; exec; rewrite ?Hnet; exec;
    do 2 eexists; (split; [reflexivity|]); cbn [trace]; repeat rewrite <- app_assoc;
    (split; reflexivity).
Qed.

Lemma field_silent_loop (resume : bool) (n : nat) :
  (forall k m, transport k m = true) ->
  forall (s : FieldAgent.CommunicationBehaviour) (w : World), exists evs,
    FieldAgent.cycle_count (fst (run_loop FieldAgent.run resume (repeat None n) s w))
    = FieldAgent.cycle_count s + n
    /\ trace (snd (run_loop FieldAgent.run resume (repeat None n) s w))
       = (trace w ++ evs)%list
    /\ length (sent_messages evs) + (FieldAgent.cycle_count s / 4 + FieldAgent.cycle_count s / 5)
       = (FieldAgent.cycle_count s + n) / 4 + (FieldAgent.cycle_count s + n) / 5.
Proof.
  intros Hnet. induction n as [|n IH]; intros s w; cbn [repeat run_loop].
  - exists []. cbn [fst snd]. rewrite app_nil_r, Nat.add_0_r. repeat split.
  - destruct (field_silent_step s w Hnet) as (w1 & evs1 & Hrun & Htr & Hsent).
    rewrite Hrun.
    match goal with
    | |- context [run_loop _ _ _ ?s1 w1] => destruct (IH s1 w1) as (evs2 & Hc & Htr2 & Hsent2)
    end.
    cbn [FieldAgent.cycle_count] in Hc, Hsent2.
    exists (evs1 ++ evs2)%list. split; [rewrite Hc; lia|].
    split; [rewrite Htr2, Htr, app_assoc; reflexivity|].
    rewrite sent_messages_app, length_app, Hsent.
    replace (FieldAgent.cycle_count s + S n) with (S (FieldAgent.cycle_count s) + n) by lia.
    pose proof (div_step_4 (FieldAgent.cycle_count s)).
    pose proof (div_step_5 (FieldAgent.cycle_count s)).
    lia.
Qed.

(** How many reports a field agent that hears nothing sends.  Over [n]
    silent iterations with a transport that takes every message, a field
    agent that starts at cycle count [c] ends at [c + n] and has sent one
    INFORM for every multiple of 4 and one for every multiple of 5 among
    the cycle counts [c + 1] to [c + n].  A fresh agent has sent
    [n / 4 + n / 5] messages. *)
Theorem field_silent_run (resume : bool)
    (s : FieldAgent.CommunicationBehaviour) (w : World) (n : nat) :
  (forall k m, transport k m = true) ->
  let c := FieldAgent.cycle_count s in
  let w' := snd (run_loop FieldAgent.run resume (repeat None n) s w) in
  FieldAgent.cycle_count (fst (run_loop FieldAgent.run resume (repeat None n) s w)) = c + n
  /\ length (sent_messages (since w w')) + (c / 4 + c / 5) = (c + n) / 4 + (c + n) / 5.
Proof.
  intros Hnet. cbv zeta.
  destruct (field_silent_loop resume n Hnet s w) as (evs & Hc & Htr & Hsent).
  rewrite (since_of_extension _ _ _ Htr). auto.
Qed.

End SilentRuns.

(** Nine silent iterations of a fresh coordinator: eighteen requests. *)
Lemma coordinator_silent_run_witness :
  let rt := simple_runtime noon true in
  let s := CoordinatorAgent.init "coordinator_messages.log" in
  let w' := snd (run_loop CoordinatorAgent.run false (repeat None 9) s fresh_world) in
  length (sent_messages (since fresh_world w')) = 18.
Proof.
  intros rt s w'.
  destruct (coordinator_silent_run (rt := rt) false s fresh_world 9 (fun _ _ => eq_refl))
    as (_ & H & _).
  exact H.
Defined.

(** Twenty silent iterations of a fresh field agent: five status reports
    and four disaster reports. *)
Lemma field_silent_run_witness :
  let rt := simple_runtime noon true in
  let s := FieldAgent.init "field_agent_messages.log" "FieldAgent1" in
  let w' := snd (run_loop FieldAgent.run false (repeat None 20) s fresh_world) in
  length (sent_messages (since fresh_world w')) = 9.
Proof.
  intros rt s w'.
  destruct (field_silent_run (rt := rt) false s fresh_world 20 (fun _ _ => eq_refl))
    as (_ & H).
  cbn [FieldAgent.cycle_count FieldAgent.init] in H.
  change ((0 + 20) / 4 + (0 + 20) / 5) with 9 in H.
  change (0 / 4 + 0 / 5) with 0 in H.
  rewrite Nat.add_0_r in H. exact H.
Defined.

Section StatusZone.
Context {rt : Runtime}.

(** The status report of the every-fourth-iteration trigger never names an
    odd zone: at a cycle count that is a multiple of 4 the location of the
    status INFORM is Zone-0, Zone-2, Zone-4, Zone-6 or Zone-8, in a round
    of twenty iterations that visits them in the order 4, 8, 2, 6, 0. *)
Theorem scheduled_status_zone_is_even
    (self : FieldAgent.CommunicationBehaviour) (t : datetime) :
  FieldAgent.cycle_count self mod 4 = 0 ->
  let zone :=
    match FieldAgent.cycle_count self mod 20 with
    | 0 => "Zone-0"
    | 4 => "Zone-4"
    | 8 => "Zone-8"
    | 12 => "Zone-2"
    | _ => "Zone-6"
    end in
  FieldAgent.status_inform self t
  = new_message "coordinator@404.city" Performative.INFORM
      (json_dumps (VDict [("status", VStr "operational");
                          ("agent", VStr (FieldAgent.agent_name self));
                          ("location", VStr zone);
                          ("resources", VStr "available");
                          ("timestamp", VStr (strftime_time t))])).
Proof.
  intros H4. unfold FieldAgent.status_inform.
  destruct (mod_20_splits (FieldAgent.cycle_count self)) as (H4' & H10 & _).
  pose proof (Nat.mod_upper_bound (FieldAgent.cycle_count self) 20 ltac:(discriminate)) as Hlt.
  rewrite H10. rewrite H4' in H4. clear H4' H10.
  set (r := FieldAgent.cycle_count self mod 20) in *.
  do 20 (destruct r as [|r]; [first [discriminate H4 | reflexivity]|]).
  exfalso. lia.
Qed.

End StatusZone.

Lemma scheduled_status_zone_is_even_witness :
  let rt := simple_runtime noon true in
  let self := {| FieldAgent.log_file := "field_agent_messages.log";
                 FieldAgent.agent_name := "FieldAgent1";
                 FieldAgent.cycle_count := 32 |} in
  body (FieldAgent.status_inform self noon)
  = Some (json_dumps (VDict [("status", VStr "operational");
                             ("agent", VStr "FieldAgent1");
                             ("location", VStr "Zone-2");
                             ("resources", VStr "available");
                             ("timestamp", VStr "12:00:00")])).
Proof.
  intros rt self.
  pose proof (scheduled_status_zone_is_even (rt := rt) self noon eq_refl) as H.
  cbv beta iota zeta in H. rewrite H. reflexivity.
Defined.
